(** * n8n workflow visualizer: graph extraction, classification, layout
      and fallback rendering

    A shallow embedding of [src/lib/n8n_visualizer.py] (class
    [N8nWorkflowVisualizer]) and of the command-line wrapper
    [src/lib/n8n_visualize.py].

    Conventions of the embedding:
    - a parsed document is a value of [json], what [json.load] returns;
      Python dictionaries are insertion-ordered association lists;
    - numbers are rationals ([Q]), standing for the finite [int] and
      [float] values of a document: [x / 100] is exact, the rounding of
      floating-point division is not modelled, its [OverflowError] is;
    - strings are Rocq strings (one character per byte); [str.lower] acts
      on the ASCII letters;
    - a Python exception is the [Raise] case of [result];
    - files written are collected in a list of paths returned next to the
      Python return value;
    - networkx (>= 2.8, see [src/lib/setup.py]), matplotlib and PIL are
      external: module [nx] models the [DiGraph] methods the program
      calls, record [Env] carries what the drawing back ends decide
      (whether a call of theirs completes, and what it measures). *)

From Stdlib Require Import String Ascii List Bool ZArith QArith Qabs Lia.
Import ListNotations.
Open Scope string_scope.
Open Scope list_scope.

(* ================================================================== *)
(** * Python values and exceptions *)

#[warnings="-register-all"]
Inductive json : Type :=
| JNull
| JBool (b : bool)
| JNum (q : Q)
| JStr (s : string)
| JArr (l : list json)
| JObj (d : list (string * json)).

Inductive exn : Type :=
| AttributeError | TypeError | ValueError | IndexError | KeyError
| OverflowError.

Inductive result (A : Type) : Type :=
| Ok (a : A)
| Raise (e : exn).
Arguments Ok {A} a.
Arguments Raise {A} e.

Definition bind {A B} (r : result A) (k : A -> result B) : result B :=
  match r with
  | Ok a => k a
  | Raise e => Raise e
  end.

Notation "x <- r ;; k" := (bind r (fun x => k))
  (at level 61, r at next level, right associativity).

(** A [for] loop whose body may raise: the first exception ends it. *)
Fixpoint foldM {A S} (body : S -> A -> result S) (l : list A) (s : S)
  : result S :=
  match l with
  | [] => Ok s
  | a :: l' => s' <- body s a ;; foldM body l' s'
  end.

(* ------------------------------------------------------------------ *)
(** ** Dictionaries

    [json.load] builds each object with [dict(pairs)]: a repeated key
    keeps the place of its first occurrence and the value of its last. *)

Fixpoint dict_set (k : string) (v : json) (d : list (string * json))
  : list (string * json) :=
  match d with
  | [] => [(k, v)]
  | (k', v') :: r =>
      if String.eqb k k' then (k', v) :: r else (k', v') :: dict_set k v r
  end.

Definition py_dict (pairs : list (string * json)) : list (string * json) :=
  fold_left (fun d kv => dict_set (fst kv) (snd kv) d) pairs [].

Fixpoint assoc (k : string) (d : list (string * json)) : option json :=
  match d with
  | [] => None
  | (k', v) :: r => if String.eqb k k' then Some v else assoc k r
  end.

(** [d.get(k)] : [None] of Python is [JNull]; [lookup] keeps absence
    apart from an explicit null. *)
Definition lookup (k : string) (d : list (string * json)) : option json :=
  assoc k (py_dict d).

Definition get (k : string) (d : list (string * json)) : json :=
  match lookup k d with Some v => v | None => JNull end.

Definition get_default (k : string) (dflt : json) (d : list (string * json))
  : json :=
  match lookup k d with Some v => v | None => dflt end.

(** [d.items()] *)
Definition items (d : list (string * json)) : list (string * json) :=
  py_dict d.

(* ------------------------------------------------------------------ *)
(** ** Truth value, iteration, indexing, arithmetic *)

Definition truthy (v : json) : bool :=
  match v with
  | JNull => false
  | JBool b => b
  | JNum q => negb (Qeq_bool q 0)
  | JStr s => negb (String.eqb s "")
  | JArr l => match l with [] => false | _ => true end
  | JObj d => match d with [] => false | _ => true end
  end.

Fixpoint chars (s : string) : list json :=
  match s with
  | EmptyString => []
  | String c r => JStr (String c EmptyString) :: chars r
  end.

(** [for x in v]: lists give their elements, dictionaries their keys,
    strings their characters; nothing else is iterable. *)
Definition py_iter (v : json) : result (list json) :=
  match v with
  | JArr l => Ok l
  | JObj d => Ok (map (fun kv => JStr (fst kv)) (items d))
  | JStr s => Ok (chars s)
  | _ => Raise TypeError
  end.

(** [v[i]] for a literal index [i]. *)
Definition getitem (v : json) (i : nat) : result json :=
  match v with
  | JArr l => match nth_error l i with Some x => Ok x | None => Raise IndexError end
  | JStr s => match nth_error (chars s) i with Some x => Ok x | None => Raise IndexError end
  | JObj _ => Raise KeyError
  | _ => Raise TypeError
  end.

(** Operand of [/] and unary [-]: [int], [float] and [bool]. *)
Definition number (v : json) : result Q :=
  match v with
  | JNum q => Ok q
  | JBool true => Ok 1%Q
  | JBool false => Ok 0%Q
  | _ => Raise TypeError
  end.

(** [x / 100]: true division rounds the quotient to a float and raises
    [OverflowError] when the rounded quotient does not fit, that is from
    [2^1024 - 2^970] on in absolute value (an integer of more than 310
    digits; no finite float is that large). *)
Definition float_overflow : Z := (2 ^ 1024 - 2 ^ 970)%Z.

Definition overflows (q : Q) : bool :=
  Qle_bool (inject_Z float_overflow) (Qabs q).

Definition div100 (x : Q) : result Q :=
  if overflows (x / 100) then Raise OverflowError else Ok (x / 100)%Q.

(* ------------------------------------------------------------------ *)
(** ** Strings *)

Definition ascii_lower (c : ascii) : ascii :=
  let n := nat_of_ascii c in
  if (65 <=? n)%nat && (n <=? 90)%nat then ascii_of_nat (n + 32) else c.

Fixpoint lower (s : string) : string :=
  match s with
  | EmptyString => EmptyString
  | String c r => String (ascii_lower c) (lower r)
  end.

(** [needle in hay] *)
Fixpoint py_in (needle hay : string) : bool :=
  if String.prefix needle hay then true
  else match hay with
       | EmptyString => false
       | String _ r => py_in needle r
       end.

(* ================================================================== *)
(** * NodeClassifier: [_get_node_color] *)

Inductive category : Type := trigger | action | condition | function | default.

(** [self.node_colors] *)
Definition node_colors (c : category) : string :=
  match c with
  | trigger => "#ff6b6b"
  | action => "#4ecdc4"
  | condition => "#ffe66d"
  | function => "#a8e6cf"
  | default => "#95a5a6"
  end.

Definition action_terms : list string :=
  ["http"; "webhook"; "email"; "slack"; "telegram"].

Definition _get_node_color (node_type : string) : string :=
  if py_in "trigger" (lower node_type) then node_colors trigger
  else if py_in "if" (lower node_type) || py_in "switch" (lower node_type)
  then node_colors condition
  else if py_in "function" (lower node_type) || py_in "code" (lower node_type)
  then node_colors function
  else if existsb (fun term => py_in term (lower node_type)) action_terms
  then node_colors action
  else node_colors default.

(** The call on a value taken from the document: [node_type.lower()]
    exists for strings only. *)
Definition get_node_color (node_type : json) : result string :=
  match node_type with
  | JStr s => Ok (_get_node_color s)
  | _ => Raise AttributeError
  end.

(* ================================================================== *)
(** * The directed graph of networkx

    [nx.DiGraph] keeps a dictionary of nodes (key to attribute
    dictionary) and, per node, a dictionary of successors: at most one
    edge per ordered pair.  [edges] lists the stored pairs in the order of
    their first insertion.  The attribute dictionary of a node is either
    empty ([None], a node created by [add_edge]) or holds the four
    attributes [create_workflow_graph] passes together. *)

Record node_attrs : Type := {
  label : json;
  type : json;
  pos : Q * Q;
  color : string
}.

Module nx.

Record DiGraph : Type := {
  nodes : list (json * option node_attrs);
  edges : list (json * json)
}.

(** [nx.DiGraph()] *)
Definition empty : DiGraph := {| nodes := []; edges := [] |}.

Definition hashable (v : json) : bool :=
  match v with
  | JArr _ | JObj _ => false
  | _ => true
  end.

(** Equality of dictionary keys: [1 == 1.0 == True], a string equals
    only the same string. *)
Definition key_eqb (a b : json) : bool :=
  match a, b with
  | JStr s, JStr t => String.eqb s t
  | JNull, JNull => true
  | (JNum _ | JBool _), (JNum _ | JBool _) =>
      match number a, number b with
      | Ok x, Ok y => Qeq_bool x y
      | _, _ => false
      end
  | _, _ => false
  end.

(** [G.has_node(n)]: [n in self._node], and [False] when [n] is not
    hashable. *)
Definition has_node (G : DiGraph) (n : json) : bool :=
  existsb (fun p => key_eqb (fst p) n) (nodes G).

Definition update_attrs (n : json) (a : node_attrs)
  (ns : list (json * option node_attrs)) : list (json * option node_attrs) :=
  map (fun p => if key_eqb (fst p) n then (fst p, Some a) else p) ns.

(** [G.add_node(n, **attr)] *)
Definition add_node (G : DiGraph) (n : json) (a : node_attrs)
  : result DiGraph :=
  if negb (hashable n) then Raise TypeError
  else if has_node G n
  then Ok {| nodes := update_attrs n a (nodes G); edges := edges G |}
  else match n with
       | JNull => Raise ValueError
       | _ => Ok {| nodes := nodes G ++ [(n, Some a)]; edges := edges G |}
       end.

(** The endpoint part of [add_edge]: a missing endpoint becomes a node
    without attributes. *)
Definition ensure_node (G : DiGraph) (n : json) : result DiGraph :=
  if negb (hashable n) then Raise TypeError
  else if has_node G n then Ok G
  else match n with
       | JNull => Raise ValueError
       | _ => Ok {| nodes := nodes G ++ [(n, None)]; edges := edges G |}
       end.

Definition same_edge (u v : json) (e : json * json) : bool :=
  key_eqb (fst e) u && key_eqb (snd e) v.

Definition has_edge (G : DiGraph) (u v : json) : bool :=
  existsb (same_edge u v) (edges G).

(** [G.add_edge(u, v)]: [self._succ[u][v] = datadict] replaces the
    entry of an edge that is already there. *)
Definition add_edge (G : DiGraph) (u v : json) : result DiGraph :=
  G1 <- ensure_node G u ;;
  G2 <- ensure_node G1 v ;;
  Ok (if has_edge G2 u v then G2
      else {| nodes := nodes G2; edges := edges G2 ++ [(u, v)] |}).

(** [G.number_of_edges(u, v)] *)
Definition number_of_edges (G : DiGraph) (u v : json) : nat :=
  length (filter (same_edge u v) (edges G)).

(** [nx.get_node_attributes(G, 'pos')] *)
Definition get_node_attributes_pos (G : DiGraph) : list (json * (Q * Q)) :=
  flat_map (fun p => match snd p with
                     | Some a => [(fst p, pos a)]
                     | None => []
                     end) (nodes G).

(** [G.nodes[n]] *)
Fixpoint node_lookup (n : json) (ns : list (json * option node_attrs))
  : option (option node_attrs) :=
  match ns with
  | [] => None
  | (k, a) :: r => if key_eqb k n then Some a else node_lookup n r
  end.

End nx.

(* ================================================================== *)
(** * GraphBuilder: [create_workflow_graph] *)

(** [(position[0]/100, -position[1]/100)] *)
Definition node_pos (position : json) : result (Q * Q) :=
  p0 <- getitem position 0 ;;
  x <- number p0 ;;
  cx <- div100 x ;;
  p1 <- getitem position 1 ;;
  y <- number p1 ;;
  cy <- div100 (- y) ;;
  Ok (cx, cy).

(** Body of [for node in nodes] (lines 57-68). *)
Definition add_workflow_node (G : nx.DiGraph) (node : json)
  : result nx.DiGraph :=
  match node with
  | JObj nd =>
      let node_id := get "id" nd in
      let node_name := get_default "name" (JStr "Unnamed") nd in
      let node_type := get_default "type" (JStr "unknown") nd in
      let position := get_default "position" (JArr [JNum 0; JNum 0]) nd in
      p <- node_pos position ;;
      c <- get_node_color node_type ;;
      nx.add_node G node_id
        {| label := node_name; type := node_type; pos := p; color := c |}
  | _ => Raise AttributeError
  end.

(** Body of [for connection in connection_list] (lines 77-80). *)
Definition add_connection (source_node : string) (G : nx.DiGraph)
  (connection : json) : result nx.DiGraph :=
  match connection with
  | JObj cd =>
      let target_node := get "node" cd in
      if truthy target_node && nx.has_node G (JStr source_node)
         && nx.has_node G target_node
      then nx.add_edge G (JStr source_node) target_node
      else Ok G
  | _ => Ok G
  end.

(** Body of [for connection_list in output_connections] (lines 75-80). *)
Definition add_connection_list (source_node : string) (G : nx.DiGraph)
  (connection_list : json) : result nx.DiGraph :=
  match connection_list with
  | JArr l => foldM (add_connection source_node) l G
  | _ => Ok G
  end.

(** Body of [for output_type, output_connections in ...] (lines 73-80). *)
Definition add_output (source_node : string) (G : nx.DiGraph)
  (output : string * json) : result nx.DiGraph :=
  match snd output with
  | JArr l => foldM (add_connection_list source_node) l G
  | _ => Ok G
  end.

(** Body of [for source_node, source_outputs in connections.items()]. *)
Definition add_source (G : nx.DiGraph) (entry : string * json)
  : result nx.DiGraph :=
  match snd entry with
  | JObj source_outputs => foldM (add_output (fst entry)) (items source_outputs) G
  | _ => Raise AttributeError
  end.

Definition add_connections (G : nx.DiGraph) (connections : json)
  : result nx.DiGraph :=
  match connections with
  | JObj cs => foldM add_source (items cs) G
  | _ => Raise AttributeError
  end.

Definition add_nodes (nodes : json) : result nx.DiGraph :=
  node_list <- py_iter nodes ;;
  foldM add_workflow_node node_list nx.empty.

Definition create_workflow_graph (workflow_data : json) : result nx.DiGraph :=
  match workflow_data with
  | JObj wd =>
      let nodes := get_default "nodes" (JArr []) wd in
      let connections := get_default "connections" (JObj []) wd in
      G <- add_nodes nodes ;;
      add_connections G connections
  | _ => Raise AttributeError
  end.

(* ================================================================== *)
(** * LayoutResolver (lines 112-118 of [visualize_workflow_matplotlib]) *)

Inductive layout : Type :=
| NodeAttributes (coords : list (json * (Q * Q)))
    (** the ['pos'] attributes stored by [create_workflow_graph] *)
| SpringLayout (k iterations : Z)
    (** [nx.spring_layout(G, k=2, iterations=50)] *).

Definition resolve_layout (G : nx.DiGraph) : layout :=
  let pos := nx.get_node_attributes_pos G in
  match pos with
  | [] => SpringLayout 2%Z 50%Z
  | _ => NodeAttributes pos
  end.

(* ================================================================== *)
(** * RenderPipeline *)

Definition path : Type := string.

(** What is drawn on the PIL image, in drawing order. *)
Inductive text : Type :=
| Title (workflow_name : json)     (** [f"n8n Workflow: {workflow_name}"] *)
| Label (node_name : string)
| Footer (node_count : nat)        (** [f"Contains {len(nodes)} nodes"] *).

Inductive draw_op : Type :=
| DrawText (x y : Z) (t : text) (fill : string)
| DrawRectangle (x0 y0 x1 y1 : Z) (fill : Z * Z * Z).

Definition canvas : Type := list draw_op.

(** How lines 251-252 end: [img.save(output_path)] and the [print]
    after it complete, or one of them raises, with or without a file left
    at the output path. *)
Inductive save_outcome : Type :=
| SaveCompleted
| RaisedFileLeft
| RaisedNoFile.

(** The parts decided outside the repository. *)
Record Env : Type := {
  (** matplotlib, lines 110 and 120-156: whether figure, drawing,
      [savefig] and [show] all complete, and the files written. *)
  matplotlib_draw :
    nx.DiGraph -> layout -> json -> option path -> bool -> bool * list path;
  (** lines 185-186: whether [Image.new] and [ImageDraw.Draw] complete
      for a size that is not negative. *)
  image_new : Z -> Z -> bool;
  (** lines 193-198: whether a font loads, the system font or else the
      built-in one. *)
  fonts_load : bool;
  (** [draw.textbbox((0, 0), s, font=font)] with the font that loaded. *)
  textbbox : string -> result (Z * Z * Z * Z);
  (** whether [draw.text] completes for this text with that font. *)
  draw_text : text -> bool;
  (** lines 251-252, for the image of the given size and content. *)
  img_save : path -> Z -> Z -> canvas -> save_outcome;
  (** [Path.with_suffix] *)
  with_suffix : path -> string -> path
}.

(** ** Primary renderer *)

Definition visualize_workflow_matplotlib (env : Env) (workflow_data : json)
  (output_path : option path) (show : bool) : option path * list path :=
  match create_workflow_graph workflow_data with
  | Raise _ => (None, [])
  | Ok G =>
      if Nat.eqb (length (nx.nodes G)) 0 then (None, [])
      else
        let pos := resolve_layout G in
        let '(completed, files) :=
          matplotlib_draw env G pos workflow_data output_path show in
        (if completed then output_path else None, files)
  end.

(** ** Fallback renderer *)

Definition hex_digit (c : ascii) : option Z :=
  let n := Z.of_nat (nat_of_ascii c) in
  if ((48 <=? n) && (n <=? 57))%Z then Some (n - 48)%Z
  else if ((97 <=? n) && (n <=? 102))%Z then Some (n - 87)%Z
  else if ((65 <=? n) && (n <=? 70))%Z then Some (n - 55)%Z
  else None.

(** [int(s, 16)] on the two characters [color[j:j+2]]. *)
Definition int16 (s : string) : result Z :=
  match s with
  | String a (String b EmptyString) =>
      match hex_digit a, hex_digit b with
      | Some h, Some l => Ok (16 * h + l)%Z
      | _, _ => Raise ValueError
      end
  | _ => Raise ValueError
  end.

(** Lines 225-228. *)
Definition color_rgb (color : string) : result (Z * Z * Z) :=
  if String.prefix "#" color then
    r <- int16 (substring 1 2 color) ;;
    g <- int16 (substring 3 2 color) ;;
    b <- int16 (substring 5 2 color) ;;
    Ok (r, g, b)
  else Ok (149, 165, 166)%Z.

Definition node_width : Z := 120%Z.
Definition node_height : Z := 40%Z.
Definition margin : Z := 20%Z.
Definition start_y : Z := 60%Z.

(** Body of [for i, node in enumerate(nodes[:20])] (lines 214-245): the
    canvas after the iteration, also when the iteration raises. *)
Definition draw_node (env : Env) (cols : Z) (cv : canvas) (i : nat)
  (node : json) : canvas * result unit :=
  let col := (Z.of_nat i mod cols)%Z in
  let row := (Z.of_nat i / cols)%Z in
  let x := (margin + col * (node_width + margin))%Z in
  let y := (start_y + row * (node_height + margin))%Z in
  match node with
  | JObj nd =>
      let node_type := get_default "type" (JStr "unknown") nd in
      match (c <- get_node_color node_type ;; color_rgb c) with
      | Raise e => (cv, Raise e)
      | Ok rgb =>
          let cv1 :=
            cv ++ [DrawRectangle x y (x + node_width)%Z (y + node_height)%Z rgb] in
          match get_default "name" (JStr "Unnamed") nd with
          | JStr name =>
              let node_name :=
                if (15 <? String.length name)%nat
                then (substring 0 12 name ++ "...")%string else name in
              match textbbox env node_name with
              | Ok (x0, y0, x1, y1) =>
                  let text_width := (x1 - x0)%Z in
                  let text_height := (y1 - y0)%Z in
                  let text_x := (x + (node_width - text_width) / 2)%Z in
                  let text_y := (y + (node_height - text_height) / 2)%Z in
                  if draw_text env (Label node_name)
                  then (cv1 ++ [DrawText text_x text_y (Label node_name) "white"],
                        Ok tt)
                  else (cv1, Raise ValueError)
              | Raise e => (cv1, Raise e)
              end
          | _ => (cv1, Raise TypeError)
          end
      end
  | _ => (cv, Raise AttributeError)
  end.

Fixpoint draw_nodes (env : Env) (cols : Z) (cv : canvas) (i : nat)
  (nodes : list json) : canvas * result unit :=
  match nodes with
  | [] => (cv, Ok tt)
  | node :: rest =>
      match draw_node env cols cv i node with
      | (cv', Ok _) => draw_nodes env cols cv' (S i) rest
      | (cv', Raise e) => (cv', Raise e)
      end
  end.

(** [nodes[:20]] together with [len(nodes)]. *)
Definition first20 (nodes : json) : result (list json * nat) :=
  match nodes with
  | JArr l => Ok (firstn 20 l, length l)
  | JStr s => Ok (firstn 20 (chars s), String.length s)
  | _ => Raise TypeError
  end.

Definition rectangles (cv : canvas) : nat :=
  length (filter (fun op => match op with
                            | DrawRectangle _ _ _ _ _ => true
                            | _ => false
                            end) cv).

(** Returns the Python result, the canvas drawn and the files written. *)
Definition create_simple_diagram (env : Env) (workflow_data : json)
  (output_path : path) (width height : Z) : bool * canvas * list path :=
  if ((width <? 0) || (height <? 0))%Z then (false, [], [])
  else if negb (image_new env width height) then (false, [], [])
  else
    match workflow_data with
    | JObj wd =>
        let nodes := get_default "nodes" (JArr []) wd in
        if negb (truthy nodes) then (false, [], [])
        else if negb (fonts_load env) then (false, [], [])
        else
          let workflow_name := get_default "name" (JStr "n8n Workflow") wd in
          if negb (draw_text env (Title workflow_name)) then (false, [], [])
          else
          let cv0 := [DrawText 10%Z 10%Z (Title workflow_name) "black"] in
          let cols := Z.max 1 ((width - 2 * margin) / (node_width + margin))%Z in
          match first20 nodes with
          | Raise _ => (false, cv0, [])
          | Ok (shown, total) =>
              match draw_nodes env cols cv0 0 shown with
              | (cv, Raise _) => (false, cv, [])
              | (cv, Ok _) =>
                  if negb (draw_text env (Footer total)) then (false, cv, [])
                  else
                  let cv' :=
                    cv ++ [DrawText 10%Z (height - 30)%Z (Footer total) "gray"] in
                  match img_save env output_path width height cv' with
                  | SaveCompleted => (true, cv', [output_path])
                  | RaisedFileLeft => (false, cv', [output_path])
                  | RaisedNoFile => (false, cv', [])
                  end
              end
          end
    | _ => (false, [], [])
    end.

(** ** Orchestration: [visualize_file] *)

Inductive file_content : Type :=
| InvalidJson
| Document (workflow_data : json).

Inductive fs_entry : Type :=
| Absent
| Directory
| RegularFile (c : file_content).

Definition visualize_file (env : Env) (entry : fs_entry) (file_path : path)
  (output_path : option path) (show : bool) : option path * list path :=
  match entry with
  | Absent => (None, [])
  | Directory => (None, [])
  | RegularFile InvalidJson => (None, [])
  | RegularFile (Document workflow_data) =>
      let output_path :=
        match output_path with
        | Some p => p
        | None => with_suffix env file_path ".png"
        end in
      let '(result, written) :=
        visualize_workflow_matplotlib env workflow_data (Some output_path) show in
      match result with
      | None =>
          let '(ok, _, written') :=
            create_simple_diagram env workflow_data output_path 800%Z 600%Z in
          (if ok then Some output_path else None, written ++ written')
      | Some r => (Some r, written)
      end
  end.

(** ** Command line: [main] of [n8n_visualize.py] *)

Record cli_args : Type := {
  input : path;
  output : option path;
  no_show : bool;
  width : Z;
  height : Z;
  format : string
}.

(** The exit code and the files written. *)
Definition main (env : Env) (entry : fs_entry) (args : cli_args)
  : Z * list path :=
  match entry with
  | Absent => (1%Z, [])
  | Directory => (1%Z, [])
  | RegularFile _ =>
      let output_path :=
        match output args with
        | Some p =>
            if String.eqb p ""
            then with_suffix env (input args) ("." ++ format args)%string
            else p
        | None => with_suffix env (input args) ("." ++ format args)%string
        end in
      let '(result, written) :=
        visualize_file env entry (input args) (Some output_path) (negb (no_show args)) in
      match result with
      | Some _ => (0%Z, written)
      | None => (1%Z, written)
      end
  end.

(* ================================================================== *)
(** * Vocabulary of the properties *)

(** The identifier a node descriptor is registered under. *)
Definition node_id (node : json) : json :=
  match node with
  | JObj nd => get "id" nd
  | _ => JNull
  end.

(** The coordinate a layout gives to node [n]. *)
Fixpoint coord_of (n : json) (coords : list (json * (Q * Q)))
  : option (Q * Q) :=
  match coords with
  | [] => None
  | (k, c) :: r => if nx.key_eqb k n then Some c else coord_of n r
  end.

(** The connection descriptors the four nested loops of lines 71-76
    reach, each with the source it is listed under, in visiting order. *)
Definition group_descriptors (connection_list : json) : list json :=
  match connection_list with
  | JArr l => l
  | _ => []
  end.

Definition output_descriptors (output_connections : json) : list json :=
  match output_connections with
  | JArr l => flat_map group_descriptors l
  | _ => []
  end.

Definition source_descriptors (source_outputs : json) : list json :=
  match source_outputs with
  | JObj os => flat_map (fun o => output_descriptors (snd o)) (items os)
  | _ => []
  end.

Definition connection_descriptors (connections : json)
  : list (string * json) :=
  match connections with
  | JObj cs =>
      flat_map (fun e => map (pair (fst e)) (source_descriptors (snd e)))
        (items cs)
  | _ => []
  end.

(** A well-formed descriptor from [source] to [target]. *)
Definition links (source : string) (target : json) (c : string * json)
  : bool :=
  String.eqb (fst c) source &&
  match snd c with
  | JObj cd => nx.key_eqb (get "node" cd) target
  | _ => false
  end.

Definition descriptors_between (workflow_data : json) (source : string)
  (target : json) : nat :=
  match workflow_data with
  | JObj wd =>
      length (filter (links source target)
                (connection_descriptors (get_default "connections" (JObj []) wd)))
  | _ => 0
  end.

(** The innermost loop body applied to a descriptor listed with its
    source. *)
Definition connect (G : nx.DiGraph) (c : string * json) : result nx.DiGraph :=
  add_connection (fst c) G (snd c).

(** What holds of the graph while the node loop runs. *)
Record node_inv (G : nx.DiGraph) : Prop := {
  ninv_edges : nx.edges G = [];
  ninv_keys : forall p, In p (nx.nodes G) -> fst p <> JNull;
  ninv_attrs : forall p, In p (nx.nodes G) -> snd p <> None
}.

(** One connection descriptor handled: the graph is left as it is, or
    one new edge between two existing nodes is appended. *)
Inductive edge_step (G : nx.DiGraph) : nx.DiGraph -> Prop :=
| step_drop : edge_step G G
| step_add (u v : json) :
    nx.has_node G u = true ->
    nx.has_node G v = true ->
    truthy v = true ->
    nx.has_edge G u v = false ->
    edge_step G {| nx.nodes := nx.nodes G; nx.edges := nx.edges G ++ [(u, v)] |}.

Inductive edge_steps (G : nx.DiGraph) : nx.DiGraph -> Prop :=
| steps_refl : edge_steps G G
| steps_snoc (G1 G2 : nx.DiGraph) :
    edge_steps G G1 -> edge_step G1 G2 -> edge_steps G G2.

(** What holds of every graph the builder returns. *)
Record graph_inv (G : nx.DiGraph) : Prop := {
  inv_keys : forall p, In p (nx.nodes G) -> fst p <> JNull;
  inv_attrs : forall p, In p (nx.nodes G) -> snd p <> None;
  inv_endpoints : forall e, In e (nx.edges G) ->
    nx.has_node G (fst e) = true /\ nx.has_node G (snd e) = true;
  inv_targets : forall e, In e (nx.edges G) -> truthy (snd e) = true;
  inv_simple : forall u v, (nx.number_of_edges G u v <= 1)%nat
}.

(** "The top-level nodes field is absent or is not a list." *)
Definition nodes_absent_or_not_list (wd : list (string * json)) : Prop :=
  match lookup "nodes" wd with
  | Some (JArr _) => False
  | _ => True
  end.

(** Documents in which every field that is present has the shape the
    builder reads; [nodes], [connections], [name], [type] and [position]
    may each be missing. *)
Definition node_well_formed (node : json) : bool :=
  match node with
  | JObj nd =>
      match lookup "id" nd with
      | Some (JStr _) => true
      | _ => false
      end &&
      match lookup "type" nd with
      | None | Some (JStr _) => true
      | _ => false
      end &&
      match lookup "position" nd with
      | None => true
      | Some (JArr (JNum x :: JNum y :: _)) =>
          negb (overflows (x / 100)) && negb (overflows (- y / 100))
      | _ => false
      end
  | _ => false
  end.

Definition is_dict (v : json) : bool :=
  match v with
  | JObj _ => true
  | _ => false
  end.

Definition well_formed (wd : list (string * json)) : bool :=
  match lookup "nodes" wd with
  | None => true
  | Some (JArr l) => forallb node_well_formed l
  | _ => false
  end &&
  match lookup "connections" wd with
  | None => true
  | Some (JObj cs) => forallb (fun e => is_dict (snd e)) (items cs)
  | _ => false
  end.

(* ================================================================== *)
(** * Sample documents and a sample environment *)

Definition node_desc (id : string) (fields : list (string * json)) : json :=
  JObj (("id", JStr id) :: fields).

Definition connect_to (targets : list string) : json :=
  JObj [("main", JArr [JArr (map (fun t => JObj [("node", JStr t)]) targets)])].

(** Nodes ["a"], ["b"]; connections [{"a":{"main":[[{"node":"b"}]]}}]. *)
Definition doc_a_to_b : json :=
  JObj [("nodes", JArr [node_desc "a" []; node_desc "b" []]);
        ("connections", JObj [("a", connect_to ["b"])])].

(** The same with the descriptor [{"node":"b"}] twice. *)
Definition doc_parallel : json :=
  JObj [("nodes", JArr [node_desc "a" []; node_desc "b" []]);
        ("connections", JObj [("a", connect_to ["b"; "b"])])].

(** The connection targets ["c"], which is no node. *)
Definition doc_dangling : json :=
  JObj [("nodes", JArr [node_desc "a" []; node_desc "b" []]);
        ("connections", JObj [("a", connect_to ["c"])])].

(** [{"nodes":[{"name":"Start"}]}]: a descriptor without identifier. *)
Definition doc_no_id : json :=
  JObj [("nodes", JArr [JObj [("name", JStr "Start")]])].

(** [{}] *)
Definition doc_no_nodes_field : json := JObj [].

(** [{"nodes":[]}] *)
Definition doc_zero_nodes : json := JObj [("nodes", JArr [])].

(** Node ["a"] at [[100, 200]], node ["b"] without position. *)
Definition doc_partial_positions : json :=
  JObj [("nodes",
         JArr [node_desc "a" [("position", JArr [JNum 100; JNum 200])];
               node_desc "b" []])].

(** Both nodes carry a position. *)
Definition doc_positions : json :=
  JObj [("nodes",
         JArr [node_desc "a" [("position", JArr [JNum 100; JNum 200])];
               node_desc "b" [("position", JArr [JNum 350; JNum (-50)])]])].

(** A node whose identifier is the empty string, targeted by ["a"]. *)
Definition doc_empty_target : json :=
  JObj [("nodes", JArr [node_desc "" []; node_desc "a" []]);
        ("connections", JObj [("a", connect_to [""])])].

(** [n] descriptors without fields of their own. *)
Definition doc_many (n : nat) : json :=
  JObj [("nodes", JArr (repeat (JObj [("type", JStr "Slack")]) n))].

(** The graph of a document that builds. *)
Definition graph_of (workflow_data : json) : nx.DiGraph :=
  match create_workflow_graph workflow_data with
  | Ok G => G
  | Raise _ => nx.empty
  end.

(** What precedes the last dot of a file name. *)
Fixpoint stem (s : string) : string :=
  match s with
  | EmptyString => EmptyString
  | String c r =>
      if py_in "." r then String c (stem r)
      else if Ascii.eqb c "." then EmptyString
      else String c r
  end.

(** A back end on which everything completes for an image of ordinary
    size; an image without pixels is not saved. *)
Definition sample_env : Env :=
  {| matplotlib_draw := fun _ _ _ out _ =>
       (true, match out with Some p => [p] | None => [] end);
     image_new := fun w h => ((w <? 2 ^ 31) && (h <? 2 ^ 31))%Z;
     fonts_load := true;
     textbbox := fun s => Ok (0, 0, 7 * Z.of_nat (String.length s), 12)%Z;
     draw_text := fun _ => true;
     img_save := fun _ w h _ =>
       if ((0 <? w) && (0 <? h))%Z then SaveCompleted else RaisedNoFile;
     with_suffix := fun p s => (stem p ++ s)%string |}.

(* ================================================================== *)
(** * Validator: [validate_workflow] of [n8n_validator.py]

    The method returns [False] at each failed check and also when an
    exception is caught by its [except Exception]. *)

(** [self.required_fields] and [self.node_required_fields] *)
Definition required_fields : list string := ["nodes"].
Definition node_required_fields : list string :=
  ["id"; "name"; "type"; "position"].

(** [field in d] for a dictionary [d]. *)
Definition has_key (k : string) (d : list (string * json)) : bool :=
  match lookup k d with
  | Some _ => true
  | None => false
  end.

(** [isinstance(p, (int, float))]: [bool] is a subclass of [int]. *)
Definition is_number (p : json) : bool :=
  match p with
  | JNum _ | JBool _ => true
  | _ => false
  end.

(** One iteration of [for i, node in enumerate(nodes)] (lines 45-71):
    [None] when the method returns [False] there, else the set
    [node_ids] after the iteration. *)
Definition validate_node (node_ids : list json) (node : json)
  : option (list json) :=
  match node with
  | JObj nd =>
      if negb (forallb (fun field => has_key field nd) node_required_fields)
      then None
      else
        let node_id := get "id" nd in
        if negb (nx.hashable node_id) then None
        else if existsb (fun k => nx.key_eqb k node_id) node_ids then None
        else
          match get_default "position" (JArr []) nd with
          | JArr [p0; p1] =>
              if is_number p0 && is_number p1
              then Some (node_ids ++ [node_id])
              else None
          | _ => None
          end
  | _ => None
  end.

Fixpoint validate_nodes (node_ids : list json) (nodes : list json)
  : option (list json) :=
  match nodes with
  | [] => Some node_ids
  | node :: rest =>
      match validate_node node_ids node with
      | Some node_ids' => validate_nodes node_ids' rest
      | None => None
      end
  end.

Definition validate_workflow (workflow_data : json) : bool :=
  match workflow_data with
  | JObj wd =>
      if negb (forallb (fun field => has_key field wd) required_fields)
      then false
      else
        match get_default "nodes" (JArr []) wd with
        | JArr nodes =>
            if Nat.eqb (length nodes) 0 then false
            else
              match validate_nodes [] nodes with
              | None => false
              | Some _ =>
                  let meta := get_default "meta" (JObj []) wd in
                  if has_key "meta" wd && negb (is_dict meta) then false
                  else true
              end
        | _ => false
        end
  | _ => false
  end.

(* ================================================================== *)
(** * Further vocabulary *)

(** Identifiers in the order of their first occurrence. *)
Definition add_key (ks : list json) (k : json) : list json :=
  if existsb (fun k' => nx.key_eqb k' k) ks then ks else ks ++ [k].

Definition first_occurrences (ids : list json) : list json :=
  fold_left add_key ids [].

(** No identifier of the list equals a later one. *)
Fixpoint distinct_keys (ks : list json) : bool :=
  match ks with
  | [] => true
  | k :: r => negb (existsb (fun k' => nx.key_eqb k k') r) && distinct_keys r
  end.

(** The rectangles and the node labels of a canvas, in drawing order. *)
Definition rectangle_boxes (cv : canvas) : list (Z * Z * Z * Z) :=
  flat_map (fun op => match op with
                      | DrawRectangle x0 y0 x1 y1 _ => [(x0, y0, x1, y1)]
                      | _ => []
                      end) cv.

Definition labels (cv : canvas) : list string :=
  flat_map (fun op => match op with
                      | DrawText _ _ (Label s) _ => [s]
                      | _ => []
                      end) cv.

(** The grid cell of the node with index [i] (lines 214-218, 230). *)
Definition cell (cols : Z) (i : nat) : Z * Z * Z * Z :=
  let col := (Z.of_nat i mod cols)%Z in
  let row := (Z.of_nat i / cols)%Z in
  let x := (margin + col * (node_width + margin))%Z in
  let y := (start_y + row * (node_height + margin))%Z in
  (x, y, (x + node_width)%Z, (y + node_height)%Z).

(** Two boxes that share no point. *)
Definition disjoint_boxes (a b : Z * Z * Z * Z) : Prop :=
  let '(ax0, ay0, ax1, ay1) := a in
  let '(bx0, by0, bx1, by1) := b in
  (ax1 < bx0 \/ bx1 < ax0 \/ ay1 < by0 \/ by1 < ay0)%Z.

(** [cols] of line 211. *)
Definition grid_cols (width : Z) : Z :=
  Z.max 1 ((width - 2 * margin) / (node_width + margin))%Z.

(** Node descriptors whose fields the fallback renderer can draw: an
    object whose type and name are strings or missing. *)
Definition drawable (node : json) : bool :=
  match node with
  | JObj nd =>
      match lookup "type" nd with
      | None | Some (JStr _) => true
      | _ => false
      end &&
      match lookup "name" nd with
      | None | Some (JStr _) => true
      | _ => false
      end
  | _ => false
  end.

(** The name a drawable descriptor is labelled with. *)
Definition display_name (node : json) : string :=
  match node with
  | JObj nd =>
      match get_default "name" (JStr "Unnamed") nd with
      | JStr name => name
      | _ => ""
      end
  | _ => ""
  end.

(** The label drawn for a node name (lines 235-236). *)
Definition truncate (name : string) : string :=
  if (15 <? String.length name)%nat
  then (substring 0 12 name ++ "...")%string else name.

(** One node with a name of more than fifteen characters, and a back
    end whose matplotlib stage always fails. *)
Definition doc_long_name : json :=
  JObj [("nodes",
         JArr [JObj [("name", JStr "A very long node name indeed")]])].

Definition failing_primary_env : Env :=
  {| matplotlib_draw := fun _ _ _ _ _ => (false, []);
     image_new := image_new sample_env;
     fonts_load := fonts_load sample_env;
     textbbox := textbbox sample_env;
     draw_text := draw_text sample_env;
     img_save := img_save sample_env;
     with_suffix := with_suffix sample_env |}.

(** PIL completes every call the fallback renderer makes for an image
    of this size saved at this path. *)
Definition pil_completes (env : Env) (output_path : path) (width height : Z)
  : Prop :=
  image_new env width height = true /\
  fonts_load env = true /\
  (forall s, exists box, textbbox env s = Ok box) /\
  (forall t, draw_text env t = true) /\
  (forall cv, img_save env output_path width height cv = SaveCompleted).

(** A position whose two numbers stay within the range of a float when
    divided by 100. *)
Definition position_in_range (p0 p1 : json) : bool :=
  match number p0, number p1 with
  | Ok x, Ok y => negb (overflows (x / 100)) && negb (overflows (- y / 100))
  | _, _ => false
  end.

(** A document the validator accepts. *)
Definition doc_valid : json :=
  JObj [("nodes",
         JArr [node_desc "1" [("name", JStr "Start");
                              ("type", JStr "n8n-nodes-base.start");
                              ("position", JArr [JNum 250; JNum 300])];
               node_desc "2" [("name", JStr "Notify");
                              ("type", JStr "n8n-nodes-base.slack");
                              ("position", JArr [JNum 450; JNum 300])]]);
        ("connections", JObj [("1", connect_to ["2"])])].



(** The two descriptors of [doc_parallel] under two output ports. *)
Definition doc_regrouped : json :=
  JObj [("nodes", JArr [node_desc "a" []; node_desc "b" []]);
        ("connections",
         JObj [("a", JObj [("main", JArr [JArr [JObj [("node", JStr "b")]]]);
                           ("error", JArr [JArr [JObj [("node", JStr "b")]]])])])].

(** The identifier ["a"] twice, with different names. *)
Definition doc_repeated_id : json :=
  JObj [("nodes", JArr [node_desc "a" [("name", JStr "first")];
                        node_desc "b" [];
                        node_desc "a" [("name", JStr "second")]])].

(* ================================================================== *)
(** * Loops *)

Lemma foldM_app {A S} (body : S -> A -> result S) (l1 l2 : list A) (s : S) :
  foldM body (l1 ++ l2) s = (s1 <- foldM body l1 s ;; foldM body l2 s1).
Proof.
  revert s; induction l1 as [|a l1 IH]; intros s; simpl; [reflexivity|].
  destruct (body s a); simpl; auto.
Qed.

(** A relation every iteration respects is respected by the loop. *)
Lemma foldM_rel {A S} (R : S -> S -> Prop) (body : S -> A -> result S) :
  (forall s, R s s) ->
  (forall s1 s2 s3, R s1 s2 -> R s2 s3 -> R s1 s3) ->
  (forall s a s', body s a = Ok s' -> R s s') ->
  forall l s s', foldM body l s = Ok s' -> R s s'.
Proof.
  intros Hrefl Htrans Hbody l.
  induction l as [|a l IH]; intros s s' H; simpl in H.
  - injection H as <-. apply Hrefl.
  - destruct (body s a) as [s1|e] eqn:E; simpl in H; [|discriminate].
    eapply Htrans; [eapply Hbody; eassumption | eapply IH; eassumption].
Qed.

(** A loop whose body never raises never raises. *)
Lemma foldM_total {A S} (body : S -> A -> result S) :
  (forall s a, exists s', body s a = Ok s') ->
  forall l s, exists s', foldM body l s = Ok s'.
Proof.
  intros Hbody l; induction l as [|a l IH]; intros s; simpl.
  - eauto.
  - destruct (Hbody s a) as [s1 ->]; simpl. apply IH.
Qed.

(** Every element of the list is handled at some point of the loop. *)
Lemma foldM_visit {A S} (R : S -> S -> Prop) (body : S -> A -> result S) :
  (forall s, R s s) ->
  (forall s1 s2 s3, R s1 s2 -> R s2 s3 -> R s1 s3) ->
  (forall s a s', body s a = Ok s' -> R s s') ->
  forall l s s' a, foldM body l s = Ok s' -> In a l ->
    exists s1 s2, R s s1 /\ body s1 a = Ok s2 /\ R s2 s'.
Proof.
  intros Hrefl Htrans Hbody l.
  induction l as [|b l IH]; intros s s' a H Hin; [destruct Hin|].
  simpl in H. destruct (body s b) as [s1|e] eqn:E; simpl in H; [|discriminate].
  destruct Hin as [->|Hin].
  - exists s, s1. repeat split; auto.
    eapply foldM_rel; eauto.
  - destruct (IH _ _ _ H Hin) as (t1 & t2 & H1 & H2 & H3).
    exists t1, t2. repeat split; auto.
    eapply Htrans; [eapply Hbody; eassumption | exact H1].
Qed.

Lemma foldM_flat_map {A B S} (body : S -> B -> result S) (f : A -> list B)
  (l : list A) (s : S) :
  foldM body (flat_map f l) s = foldM (fun s a => foldM body (f a) s) l s.
Proof.
  revert s; induction l as [|a l IH]; intros s; simpl; [reflexivity|].
  rewrite foldM_app. destruct (foldM body (f a) s); simpl; auto.
Qed.

Lemma foldM_map {A B S} (body : S -> B -> result S) (f : A -> B)
  (l : list A) (s : S) :
  foldM body (map f l) s = foldM (fun s a => body s (f a)) l s.
Proof.
  revert s; induction l as [|a l IH]; intros s; simpl; [reflexivity|].
  destruct (body s (f a)); simpl; auto.
Qed.

Lemma foldM_ext {A S} (f g : S -> A -> result S) (l : list A) (s : S) :
  (forall s a, In a l -> f s a = g s a) -> foldM f l s = foldM g l s.
Proof.
  revert s; induction l as [|a l IH]; intros s H; simpl; [reflexivity|].
  rewrite (H s a (or_introl eq_refl)).
  destruct (g s a); simpl; auto.
  apply IH. intros; apply H; right; assumption.
Qed.

(* ================================================================== *)
(** * Dictionaries *)

Lemma dict_set_not_nil k v d : dict_set k v d <> [].
Proof.
  destruct d as [|[k' v'] r]; simpl; [discriminate|].
  destruct (String.eqb k k'); discriminate.
Qed.

Lemma py_dict_nil d : py_dict d = [] -> d = [].
Proof.
  unfold py_dict. destruct d as [|[k v] r]; [reflexivity|]. simpl.
  assert (H : forall l acc, acc <> [] ->
            fold_left (fun d kv => dict_set (fst kv) (snd kv) d) l acc <> []).
  { induction l as [|x l IH]; intros acc Hacc; simpl; [assumption|].
    apply IH. apply dict_set_not_nil. }
  intros E. exfalso. eapply H; [|exact E]. discriminate.
Qed.

(** An iterable without elements is falsy. *)
Lemma py_iter_nil v : py_iter v = Ok [] -> truthy v = false.
Proof.
  destruct v as [| | |s|l|d]; simpl; try discriminate.
  - destruct s; simpl; [reflexivity|discriminate].
  - intros H; injection H as ->; reflexivity.
  - intros H; injection H as H.
    apply map_eq_nil in H. apply py_dict_nil in H. subst; reflexivity.
Qed.

(* ================================================================== *)
(** * NodeClassifier *)

Lemma node_colors_inj c1 c2 : node_colors c1 = node_colors c2 -> c1 = c2.
Proof. destruct c1, c2; simpl; intros H; try reflexivity; discriminate H. Qed.

(** C5. NodeClassifier is first-match-wins in the order trigger,
    condition, function, action, default: each category is returned
    exactly when its predicate holds on the lower-cased tag and no earlier
    one does.  A tag that contains both "webhook" and "trigger" in any
    letter case is a trigger and not an action, and every string gets
    exactly one of the five categories. *)
Theorem classifier_first_match_wins (node_type : string) :
  let t := lower node_type in
  let is_trigger := py_in "trigger" t in
  let is_condition := py_in "if" t || py_in "switch" t in
  let is_function := py_in "function" t || py_in "code" t in
  let is_action :=
    py_in "http" t || py_in "webhook" t || py_in "email" t ||
    py_in "slack" t || py_in "telegram" t in
  (is_trigger = true -> _get_node_color node_type = node_colors trigger) /\
  (is_trigger = false -> is_condition = true ->
     _get_node_color node_type = node_colors condition) /\
  (is_trigger = false -> is_condition = false -> is_function = true ->
     _get_node_color node_type = node_colors function) /\
  (is_trigger = false -> is_condition = false -> is_function = false ->
     is_action = true -> _get_node_color node_type = node_colors action) /\
  (is_trigger = false -> is_condition = false -> is_function = false ->
     is_action = false -> _get_node_color node_type = node_colors default) /\
  (py_in "webhook" t = true -> is_trigger = true ->
     _get_node_color node_type = node_colors trigger /\
     _get_node_color node_type <> node_colors action) /\
  (exists c, _get_node_color node_type = node_colors c /\
     forall c', _get_node_color node_type = node_colors c' -> c' = c).
Proof.
  intros t is_trigger is_condition is_function is_action.
  assert (Hact : existsb (fun term => py_in term t) action_terms = is_action).
  { unfold action_terms, is_action; simpl.
    rewrite orb_false_r, !orb_assoc. reflexivity. }
  unfold _get_node_color. fold t. fold is_trigger is_condition is_function.
  rewrite Hact.
  repeat split.
  - intros ->. reflexivity.
  - intros -> ->. reflexivity.
  - intros -> -> ->. reflexivity.
  - intros -> -> -> ->. reflexivity.
  - intros -> -> -> ->. reflexivity.
  - rewrite H0. reflexivity.
  - rewrite H0. simpl. discriminate.
  - destruct is_trigger, is_condition, is_function, is_action;
      eexists; (split; [reflexivity | intros c' Hc'; symmetry;
                                       apply node_colors_inj; exact Hc']).
Qed.

Lemma classifier_first_match_wins_witness :
  _get_node_color "Webhook Trigger" = node_colors trigger /\
  _get_node_color "Webhook Trigger" <> node_colors action.
Proof.
  apply (proj1 (proj2 (proj2 (proj2 (proj2 (proj2
           (classifier_first_match_wins "Webhook Trigger")))))));
    reflexivity.
Defined.

(* ================================================================== *)
(** * Graph keys and graph methods *)

Lemma key_eqb_hashable k n : nx.key_eqb k n = true -> nx.hashable n = true.
Proof. destruct k, n; simpl; try discriminate; reflexivity. Qed.

Lemma key_eqb_refl n : nx.hashable n = true -> nx.key_eqb n n = true.
Proof.
  destruct n as [|b|q|s|l|d]; simpl; try discriminate; intros _.
  - reflexivity.
  - destruct b; reflexivity.
  - apply Qeq_bool_refl.
  - apply String.eqb_refl.
Qed.

Ltac split_bools :=
  repeat match goal with
         | b : bool |- _ => destruct b
         end.

Lemma key_eqb_sym a b : nx.key_eqb a b = true -> nx.key_eqb b a = true.
Proof.
  destruct a as [|x|x|x|x|x], b as [|y|y|y|y|y]; simpl;
    try discriminate; try reflexivity.
  5: { rewrite String.eqb_sym. auto. }
  all: split_bools; simpl; apply Qeq_bool_sym.
Qed.

Lemma key_eqb_trans a b c :
  nx.key_eqb a b = true -> nx.key_eqb b c = true -> nx.key_eqb a c = true.
Proof.
  destruct a as [|x|x|x|x|x], b as [|y|y|y|y|y]; simpl; try discriminate;
    destruct c as [|z|z|z|z|z]; simpl; try discriminate; try reflexivity.
  9: { intros H1 H2. apply String.eqb_eq in H1, H2. subst.
       apply String.eqb_refl. }
  all: split_bools; simpl; apply Qeq_bool_trans.
Qed.

Lemma key_eqb_null k : nx.key_eqb k JNull = true -> k = JNull.
Proof. destruct k; simpl; try discriminate; reflexivity. Qed.

Lemma has_node_hashable G n : nx.has_node G n = true -> nx.hashable n = true.
Proof.
  unfold nx.has_node. intros H. apply existsb_exists in H.
  destruct H as (p & _ & H). eapply key_eqb_hashable; eassumption.
Qed.

Lemma ensure_node_present G n :
  nx.has_node G n = true -> nx.ensure_node G n = Ok G.
Proof.
  intros H. unfold nx.ensure_node.
  rewrite (has_node_hashable _ _ H), H. reflexivity.
Qed.

(** Between two nodes of the graph [add_edge] creates no node and does
    not raise. *)
Lemma add_edge_between_nodes G u v :
  nx.has_node G u = true -> nx.has_node G v = true ->
  nx.add_edge G u v =
  Ok (if nx.has_edge G u v then G
      else {| nx.nodes := nx.nodes G; nx.edges := nx.edges G ++ [(u, v)] |}).
Proof.
  intros Hu Hv. unfold nx.add_edge.
  rewrite (ensure_node_present _ _ Hu); simpl.
  rewrite (ensure_node_present _ _ Hv); simpl. reflexivity.
Qed.

Lemma number_of_edges_absent G u v :
  nx.has_edge G u v = false -> nx.number_of_edges G u v = 0%nat.
Proof.
  unfold nx.has_edge, nx.number_of_edges.
  induction (nx.edges G) as [|e l IH]; simpl; [reflexivity|].
  destruct (nx.same_edge u v e); simpl; [discriminate|exact IH].
Qed.

Lemma number_of_edges_present G u v :
  nx.has_edge G u v = true -> (1 <= nx.number_of_edges G u v)%nat.
Proof.
  unfold nx.has_edge, nx.number_of_edges.
  induction (nx.edges G) as [|e l IH]; simpl; [discriminate|].
  destruct (nx.same_edge u v e); simpl; [lia|exact IH].
Qed.

Lemma has_edge_same u v u' v' G :
  nx.same_edge u' v' (u, v) = true -> nx.has_edge G u' v' = true ->
  nx.has_edge G u v = true.
Proof.
  unfold nx.has_edge. intros Hs H.
  apply existsb_exists in H. destruct H as (e & Hin & He).
  apply existsb_exists. exists e. split; [assumption|].
  unfold nx.same_edge in *; simpl in *.
  apply andb_true_iff in Hs, He. destruct Hs as [A B], He as [C D].
  apply andb_true_iff; split.
  - eapply key_eqb_trans; [exact C | apply key_eqb_sym; exact A].
  - eapply key_eqb_trans; [exact D | apply key_eqb_sym; exact B].
Qed.

(* ================================================================== *)
(** * The connection loops *)

Lemma edge_step_nodes G G' : edge_step G G' -> nx.nodes G' = nx.nodes G.
Proof. intros []; reflexivity. Qed.

Lemma edge_steps_nodes G G' : edge_steps G G' -> nx.nodes G' = nx.nodes G.
Proof.
  induction 1 as [|G1 G2 _ IH Hs]; [reflexivity|].
  rewrite (edge_step_nodes _ _ Hs). exact IH.
Qed.

Lemma edge_steps_trans G1 G2 G3 :
  edge_steps G1 G2 -> edge_steps G2 G3 -> edge_steps G1 G3.
Proof.
  intros H12 H23. induction H23 as [|Ga Gb _ IH Hs]; [assumption|].
  eapply steps_snoc; eassumption.
Qed.

Lemma edge_step_steps G G' : edge_step G G' -> edge_steps G G'.
Proof. intros H. eapply steps_snoc; [apply steps_refl | exact H]. Qed.

Lemma has_node_same_nodes G G' n :
  nx.nodes G' = nx.nodes G -> nx.has_node G' n = nx.has_node G n.
Proof. unfold nx.has_node. intros ->. reflexivity. Qed.

Lemma edge_step_has_edge G G' u v :
  edge_step G G' -> nx.has_edge G u v = true -> nx.has_edge G' u v = true.
Proof.
  intros [|u' v' _ _ _ _] H; [assumption|].
  unfold nx.has_edge in *; simpl. rewrite existsb_app, H. reflexivity.
Qed.

Lemma edge_steps_has_edge G G' u v :
  edge_steps G G' -> nx.has_edge G u v = true -> nx.has_edge G' u v = true.
Proof.
  induction 1 as [|G1 G2 _ IH Hs]; intros H; [assumption|].
  eapply edge_step_has_edge; eauto.
Qed.

Lemma edge_step_inv G G' : edge_step G G' -> graph_inv G -> graph_inv G'.
Proof.
  intros [|u v Hu Hv Ht He] [Hk Ha Hend Htg Hsim]; [constructor; assumption|].
  constructor; simpl.
  - exact Hk.
  - exact Ha.
  - intros e Hin. unfold nx.has_node; simpl.
    apply in_app_or in Hin. destruct Hin as [Hin|[<-|[]]].
    + apply Hend; assumption.
    + split; assumption.
  - intros e Hin. apply in_app_or in Hin. destruct Hin as [Hin|[<-|[]]].
    + apply Htg; assumption.
    + exact Ht.
  - intros u' v'. unfold nx.number_of_edges; simpl.
    rewrite filter_app, length_app; simpl.
    destruct (nx.same_edge u' v' (u, v)) eqn:Es; simpl.
    + assert (Hno : nx.has_edge G u' v' = false).
      { destruct (nx.has_edge G u' v') eqn:E'; [|reflexivity].
        rewrite (has_edge_same _ _ _ _ _ Es E') in He. discriminate. }
      apply number_of_edges_absent in Hno.
      unfold nx.number_of_edges in Hno. rewrite Hno. lia.
    + specialize (Hsim u' v'). unfold nx.number_of_edges in Hsim. lia.
Qed.

Lemma edge_steps_inv G G' : edge_steps G G' -> graph_inv G -> graph_inv G'.
Proof.
  induction 1 as [|G1 G2 _ IH Hs]; intros H; [assumption|].
  eapply edge_step_inv; eauto.
Qed.

(** The innermost body never raises and takes one [edge_step]. *)
Lemma add_connection_step source_node G connection :
  exists G', add_connection source_node G connection = Ok G' /\ edge_step G G'.
Proof.
  destruct connection as [| | | | |cd]; simpl;
    try (exists G; split; [reflexivity|constructor]).
  destruct (truthy (get "node" cd)) eqn:Et; simpl;
    [|exists G; split; [reflexivity|constructor]].
  destruct (nx.has_node G (JStr source_node)) eqn:Es; simpl;
    [|exists G; split; [reflexivity|constructor]].
  destruct (nx.has_node G (get "node" cd)) eqn:Eg; simpl;
    [|exists G; split; [reflexivity|constructor]].
  rewrite (add_edge_between_nodes _ _ _ Es Eg).
  destruct (nx.has_edge G (JStr source_node) (get "node" cd)) eqn:Ee.
  - exists G; split; [reflexivity|constructor].
  - eexists; split; [reflexivity|]. constructor; assumption.
Qed.

Lemma add_connection_steps source_node G connection G' :
  add_connection source_node G connection = Ok G' -> edge_steps G G'.
Proof.
  intros H. destruct (add_connection_step source_node G connection)
    as (G1 & E & Hs).
  rewrite E in H. injection H as <-. apply edge_step_steps; assumption.
Qed.

Lemma add_connection_list_flat source_node G connection_list :
  add_connection_list source_node G connection_list =
  foldM (add_connection source_node) (group_descriptors connection_list) G.
Proof. destruct connection_list; reflexivity. Qed.

Lemma add_output_flat source_node G output :
  add_output source_node G output =
  foldM (add_connection source_node) (output_descriptors (snd output)) G.
Proof.
  unfold add_output, output_descriptors.
  destruct (snd output) as [| | | |l|]; try reflexivity.
  rewrite foldM_flat_map. apply foldM_ext.
  intros s a _. apply add_connection_list_flat.
Qed.

Lemma add_source_flat G entry G' :
  add_source G entry = Ok G' ->
  foldM connect (map (pair (fst entry)) (source_descriptors (snd entry))) G
  = Ok G'.
Proof.
  unfold add_source, source_descriptors.
  destruct (snd entry) as [| | | | |os]; try discriminate.
  intros H. rewrite foldM_map, foldM_flat_map.
  rewrite <- H. apply foldM_ext.
  intros s a _. rewrite add_output_flat. reflexivity.
Qed.

Lemma foldM_ok_mono {A S} (f g : S -> A -> result S) :
  (forall s a s', f s a = Ok s' -> g s a = Ok s') ->
  forall l s s', foldM f l s = Ok s' -> foldM g l s = Ok s'.
Proof.
  intros Hfg l; induction l as [|a l IH]; intros s s' H; simpl in *;
    [assumption|].
  destruct (f s a) as [s1|e] eqn:E; simpl in H; [|discriminate].
  rewrite (Hfg _ _ _ E); simpl. apply IH; assumption.
Qed.

(** When the four nested loops complete, they have handled the
    descriptors of [connection_descriptors] one after the other. *)
Lemma add_connections_flat G connections G' :
  add_connections G connections = Ok G' ->
  foldM connect (connection_descriptors connections) G = Ok G'.
Proof.
  unfold add_connections, connection_descriptors.
  destruct connections as [| | | | |cs]; try discriminate.
  intros H. rewrite foldM_flat_map.
  revert H. apply foldM_ok_mono. intros s a s'. apply add_source_flat.
Qed.

Lemma connect_steps G c G' : connect G c = Ok G' -> edge_steps G G'.
Proof. apply add_connection_steps. Qed.

Lemma add_connections_steps G connections G' :
  add_connections G connections = Ok G' -> edge_steps G G'.
Proof.
  intros H. apply add_connections_flat in H. revert H.
  apply (foldM_rel edge_steps connect).
  - apply steps_refl.
  - apply edge_steps_trans.
  - apply connect_steps.
Qed.

(* ================================================================== *)
(** * The node loop *)

Lemma update_attrs_in n a ns p :
  In p (nx.update_attrs n a ns) ->
  exists p0, In p0 ns /\ fst p = fst p0 /\ (p = p0 \/ snd p = Some a).
Proof.
  unfold nx.update_attrs. intros H. apply in_map_iff in H.
  destruct H as (p0 & E & Hin). exists p0. split; [assumption|].
  destruct (nx.key_eqb (fst p0) n); subst; simpl; auto.
Qed.

Lemma add_node_inv G n a G' :
  node_inv G -> nx.add_node G n a = Ok G' ->
  node_inv G' /\ nx.nodes G' <> [].
Proof.
  intros [He Hk Ha]. unfold nx.add_node.
  destruct (nx.hashable n); simpl; [|discriminate].
  destruct (nx.has_node G n) eqn:Hn.
  - intros H; injection H as <-. split.
    + constructor; simpl; [assumption| |].
      * intros p Hp. apply update_attrs_in in Hp.
        destruct Hp as (p0 & Hin & Ef & _). rewrite Ef. apply Hk; assumption.
      * intros p Hp. apply update_attrs_in in Hp.
        destruct Hp as (p0 & Hin & _ & [->|E]); [apply Ha; assumption|].
        rewrite E; discriminate.
    + simpl. unfold nx.has_node in Hn. unfold nx.update_attrs.
      destruct (nx.nodes G); [discriminate Hn|discriminate].
  - destruct n; try discriminate;
      (intros H; injection H as <-; split;
       [constructor; simpl; [assumption| |];
        intros p Hp; apply in_app_or in Hp;
        (destruct Hp as [Hp|[<-|[]]]; [auto|simpl; discriminate])
       | simpl; intros E; apply app_eq_nil in E; destruct E; discriminate]).
Qed.

Lemma add_workflow_node_inv G node G' :
  node_inv G -> add_workflow_node G node = Ok G' ->
  node_inv G' /\ nx.nodes G' <> [].
Proof.
  intros HG. unfold add_workflow_node.
  destruct node as [| | | | |nd]; try discriminate.
  destruct (node_pos _) as [p|]; simpl; [|discriminate].
  destruct (get_node_color _) as [c|]; simpl; [|discriminate].
  apply add_node_inv; assumption.
Qed.

Lemma node_loop_inv l : forall G G',
  node_inv G -> foldM add_workflow_node l G = Ok G' ->
  node_inv G' /\ (l <> [] \/ nx.nodes G <> [] -> nx.nodes G' <> []).
Proof.
  induction l as [|node l IH]; intros G G' HG H; simpl in H.
  - injection H as <-. split; [assumption|]. intros [E|E]; [congruence|exact E].
  - destruct (add_workflow_node G node) as [G1|] eqn:E; simpl in H;
      [|discriminate].
    destruct (add_workflow_node_inv _ _ _ HG E) as [HG1 Hne].
    destruct (IH _ _ HG1 H) as [HG' Hne'].
    split; [assumption|]. intros _. apply Hne'. right; assumption.
Qed.

Lemma node_inv_empty : node_inv nx.empty.
Proof. constructor; simpl; [reflexivity | intros p [] | intros p []]. Qed.

Lemma node_inv_graph_inv G : node_inv G -> graph_inv G.
Proof.
  intros [He Hk Ha]. constructor; try assumption.
  - rewrite He. intros e [].
  - rewrite He. intros e [].
  - intros u v. unfold nx.number_of_edges. rewrite He. simpl. lia.
Qed.

(** The builder in two phases: the node loop from the empty graph, then
    edge steps that leave the nodes as they are. *)
Lemma create_workflow_graph_phases workflow_data G :
  create_workflow_graph workflow_data = Ok G ->
  exists wd l G0,
    workflow_data = JObj wd /\
    py_iter (get_default "nodes" (JArr []) wd) = Ok l /\
    foldM add_workflow_node l nx.empty = Ok G0 /\
    node_inv G0 /\
    add_connections G0 (get_default "connections" (JObj []) wd) = Ok G /\
    edge_steps G0 G /\
    nx.nodes G = nx.nodes G0 /\
    graph_inv G.
Proof.
  unfold create_workflow_graph, add_nodes.
  destruct workflow_data as [| | | | |wd]; try discriminate.
  destruct (py_iter _) as [l|] eqn:El; simpl; [|discriminate].
  destruct (foldM add_workflow_node l nx.empty) as [G0|] eqn:E0; simpl;
    [|discriminate].
  intros H. exists wd, l, G0.
  destruct (node_loop_inv _ _ _ node_inv_empty E0) as [HG0 _].
  pose proof (add_connections_steps _ _ _ H) as Hs.
  refine (conj eq_refl (conj El (conj E0 (conj HG0 (conj H (conj Hs
            (conj _ _))))))).
  - apply edge_steps_nodes; assumption.
  - eapply edge_steps_inv; [eassumption|]. apply node_inv_graph_inv; assumption.
Qed.

(* ================================================================== *)
(** * GraphBuilder: edges *)

(** C1. An edge is stored only between identifiers that exist among the
    built node records: the nodes of the result are those the node loop
    built, every stored edge has both endpoints among them, and a
    connection descriptor with a missing endpoint leaves the graph as it
    is, without an error. *)
Theorem no_dangling_edge (workflow_data : json) (G : nx.DiGraph) :
  create_workflow_graph workflow_data = Ok G ->
  (exists wd G0,
      workflow_data = JObj wd /\
      add_nodes (get_default "nodes" (JArr []) wd) = Ok G0 /\
      nx.nodes G = nx.nodes G0) /\
  (forall u v, In (u, v) (nx.edges G) ->
      nx.has_node G u = true /\ nx.has_node G v = true) /\
  (forall source_node G1 cd,
      nx.has_node G1 (JStr source_node) = false \/
      nx.has_node G1 (get "node" cd) = false ->
      add_connection source_node G1 (JObj cd) = Ok G1).
Proof.
  intros H.
  destruct (create_workflow_graph_phases _ _ H)
    as (wd & l & G0 & -> & El & E0 & _ & _ & _ & Hn & Hinv).
  split; [|split].
  - exists wd, G0. split; [reflexivity|]. split; [|assumption].
    unfold add_nodes. rewrite El. exact E0.
  - intros u v Hin. exact (inv_endpoints _ Hinv (u, v) Hin).
  - intros source_node G1 cd [E|E]; simpl; rewrite E;
      rewrite ?andb_false_r; reflexivity.
Qed.

Lemma no_dangling_edge_witness :
  create_workflow_graph doc_a_to_b = Ok (graph_of doc_a_to_b) /\
  nx.has_node (graph_of doc_a_to_b) (JStr "a") = true /\
  nx.has_node (graph_of doc_a_to_b) (JStr "b") = true.
Proof.
  split; [reflexivity|].
  apply (proj1 (proj2
           (no_dangling_edge doc_a_to_b (graph_of doc_a_to_b) eq_refl))).
  left; reflexivity.
Defined.

Lemma truthy_key_eqb a b : nx.key_eqb a b = true -> truthy a = truthy b.
Proof.
  assert (Hq : forall x y, Qeq_bool x y = true ->
                 negb (Qeq_bool x 0) = negb (Qeq_bool y 0)).
  { intros x y Hxy. apply Qeq_bool_iff in Hxy. f_equal.
    destruct (Qeq_bool x 0) eqn:Ex, (Qeq_bool y 0) eqn:Ey; try reflexivity.
    - apply Qeq_bool_iff in Ex. rewrite Hxy in Ex.
      apply Qeq_bool_iff in Ex. congruence.
    - apply Qeq_bool_iff in Ey. rewrite <- Hxy in Ey.
      apply Qeq_bool_iff in Ey. congruence. }
  destruct a as [|x|x|x|x|x], b as [|y|y|y|y|y]; simpl;
    try discriminate; try reflexivity.
  5: { intros E. apply String.eqb_eq in E. subst. reflexivity. }
  all: split_bools; simpl; intros E; try discriminate E;
    try reflexivity; try (apply Hq in E; simpl in E; congruence).
Qed.

Lemma has_node_key_eqb G a b :
  nx.key_eqb a b = true -> nx.has_node G b = true -> nx.has_node G a = true.
Proof.
  unfold nx.has_node. intros E H. apply existsb_exists in H.
  destruct H as (p & Hin & Hp). apply existsb_exists. exists p.
  split; [assumption|].
  eapply key_eqb_trans; [exact Hp | apply key_eqb_sym; exact E].
Qed.

(** A descriptor that passes the guard leaves its edge in the graph. *)
Lemma add_connection_has_edge source_node G cd G' :
  truthy (get "node" cd) = true ->
  nx.has_node G (JStr source_node) = true ->
  nx.has_node G (get "node" cd) = true ->
  add_connection source_node G (JObj cd) = Ok G' ->
  nx.has_edge G' (JStr source_node) (get "node" cd) = true.
Proof.
  intros Ht Hs Hg. simpl. rewrite Ht, Hs, Hg; simpl.
  rewrite (add_edge_between_nodes _ _ _ Hs Hg).
  destruct (nx.has_edge G (JStr source_node) (get "node" cd)) eqn:E;
    intros H; injection H as <-; [assumption|].
  unfold nx.has_edge; simpl. rewrite existsb_app; simpl.
  unfold nx.same_edge; simpl.
  rewrite String.eqb_refl.
  rewrite (key_eqb_refl _ (has_node_hashable _ _ Hg)); simpl.
  apply orb_true_r.
Qed.

Lemma filter_length_pos {A} (f : A -> bool) (l : list A) :
  (1 <= length (filter f l))%nat -> exists a, In a l /\ f a = true.
Proof.
  induction l as [|a l IH]; simpl; [lia|].
  destruct (f a) eqn:E.
  - intros _. exists a. auto.
  - intros H. destruct (IH H) as (b & Hin & Hb). exists b. auto.
Qed.

(** Two descriptors from ["a"] to ["b"], both nodes present: the claim
    of C4 asks for two edges between the pair, the graph stores one. *)
Lemma parallel_descriptors_not_kept :
  create_workflow_graph doc_parallel = Ok (graph_of doc_parallel) /\
  descriptors_between doc_parallel "a" (JStr "b") = 2%nat /\
  nx.has_node (graph_of doc_parallel) (JStr "a") = true /\
  nx.has_node (graph_of doc_parallel) (JStr "b") = true /\
  nx.number_of_edges (graph_of doc_parallel) (JStr "a") (JStr "b") <> 2%nat.
Proof. vm_compute. repeat split; discriminate. Qed.

(** C4, as the code has it. When the connection map yields [k >= 1]
    well-formed descriptors between the same source and the same
    non-empty target, both present as nodes, the graph stores exactly one
    edge for the pair: [nx.DiGraph] keeps no parallel edges, repeated
    descriptors collapse. *)
Theorem parallel_descriptors_collapse (workflow_data : json) (G : nx.DiGraph)
  (source : string) (target : json) (k : nat) :
  create_workflow_graph workflow_data = Ok G ->
  descriptors_between workflow_data source target = k ->
  (1 <= k)%nat ->
  nx.has_node G (JStr source) = true ->
  nx.has_node G target = true ->
  truthy target = true ->
  nx.number_of_edges G (JStr source) target = 1%nat.
Proof.
  intros H Hk Hpos Hs Ht Htr.
  destruct (create_workflow_graph_phases _ _ H)
    as (wd & l & G0 & -> & _ & _ & _ & Hc & _ & Hn & Hinv).
  apply add_connections_flat in Hc.
  simpl in Hk. subst k. apply filter_length_pos in Hpos.
  destruct Hpos as ([s c] & Hin & Hl).
  unfold links in Hl; simpl in Hl. apply andb_true_iff in Hl.
  destruct Hl as [Es Hl]. apply String.eqb_eq in Es. subst s.
  destruct c as [| | | | |cd]; try discriminate.
  destruct (foldM_visit edge_steps connect steps_refl edge_steps_trans
              connect_steps _ _ _ _ Hc Hin) as (G1 & G2 & H1 & Hb & H2).
  assert (Hn1 : nx.nodes G1 = nx.nodes G).
  { rewrite (edge_steps_nodes _ _ H1). symmetry; exact Hn. }
  assert (Hedge : nx.has_edge G2 (JStr source) (get "node" cd) = true).
  { apply (add_connection_has_edge source G1 cd G2).
    - rewrite (truthy_key_eqb _ _ Hl). exact Htr.
    - rewrite (has_node_same_nodes _ _ _ Hn1). exact Hs.
    - rewrite (has_node_same_nodes _ _ _ Hn1).
      eapply has_node_key_eqb; eassumption.
    - exact Hb. }
  apply (edge_steps_has_edge _ _ _ _ H2) in Hedge.
  assert (Hedge' : nx.has_edge G (JStr source) target = true).
  { eapply has_edge_same; [|exact Hedge].
    unfold nx.same_edge; simpl. rewrite String.eqb_refl; simpl.
    apply key_eqb_sym; exact Hl. }
  apply number_of_edges_present in Hedge'.
  pose proof (inv_simple _ Hinv (JStr source) target). lia.
Qed.

Lemma parallel_descriptors_collapse_witness :
  create_workflow_graph doc_parallel = Ok (graph_of doc_parallel) /\
  descriptors_between doc_parallel "a" (JStr "b") = 2%nat /\
  nx.number_of_edges (graph_of doc_parallel) (JStr "a") (JStr "b") = 1%nat.
Proof.
  split; [reflexivity|]. split; [reflexivity|].
  apply (parallel_descriptors_collapse doc_parallel (graph_of doc_parallel)
           "a" (JStr "b") 2);
    try reflexivity.
  apply le_S, le_n.
Defined.

(** C10. A connection descriptor whose target identifier is the empty
    string is dropped, whatever the graph holds, a node with the empty
    identifier included: the target is tested for its truth value before
    its presence.  No graph the builder returns has an edge into the
    empty identifier. *)
Theorem empty_target_dropped :
  (forall source_node G cd,
      get "node" cd = JStr "" ->
      add_connection source_node G (JObj cd) = Ok G) /\
  (forall workflow_data G u,
      create_workflow_graph workflow_data = Ok G ->
      ~ In (u, JStr "") (nx.edges G)).
Proof.
  split.
  - intros source_node G cd E. simpl. rewrite E. reflexivity.
  - intros workflow_data G u H Hin.
    destruct (create_workflow_graph_phases _ _ H)
      as (wd & l & G0 & _ & _ & _ & _ & _ & _ & _ & Hinv).
    pose proof (inv_targets _ Hinv _ Hin) as Ht. discriminate Ht.
Qed.

Lemma empty_target_dropped_witness :
  nx.has_node (graph_of doc_empty_target) (JStr "") = true /\
  nx.has_node (graph_of doc_empty_target) (JStr "a") = true /\
  add_connection "a" (graph_of doc_empty_target) (JObj [("node", JStr "")])
  = Ok (graph_of doc_empty_target).
Proof.
  split; [reflexivity|]. split; [reflexivity|].
  apply (proj1 empty_target_dropped). reflexivity.
Defined.

(* ================================================================== *)
(** * GraphBuilder: node descriptors and errors *)

Lemma has_node_null G : node_inv G -> nx.has_node G JNull = false.
Proof.
  intros [_ Hk _]. unfold nx.has_node.
  destruct (existsb _ _) eqn:E; [|reflexivity].
  apply existsb_exists in E. destruct E as (p & Hin & Hp).
  apply key_eqb_null in Hp. elim (Hk p Hin Hp).
Qed.

Lemma get_absent k d : lookup k d = None -> get k d = JNull.
Proof. unfold get. intros ->. reflexivity. Qed.

Lemma get_default_present k dflt d v :
  lookup k d = Some v -> get_default k dflt d = v.
Proof. unfold get_default. intros ->. reflexivity. Qed.

Lemma get_default_absent k dflt d :
  lookup k d = None -> get_default k dflt d = dflt.
Proof. unfold get_default. intros ->. reflexivity. Qed.

(** The node loop stops with an exception at the latest when it reaches
    a descriptor without identifier. *)
Lemma node_loop_missing_id nd l : forall G,
  node_inv G -> In (JObj nd) l -> lookup "id" nd = None ->
  exists e, foldM add_workflow_node l G = Raise e.
Proof.
  induction l as [|node l IH]; intros G HG Hin Hid; [destruct Hin|].
  simpl. destruct (add_workflow_node G node) as [G1|e] eqn:E; simpl;
    [|eauto].
  destruct Hin as [->|Hin].
  - exfalso. revert E. simpl.
    destruct (node_pos _); simpl; [|discriminate].
    destruct (get_node_color _); simpl; [|discriminate].
    rewrite (get_absent _ _ Hid). unfold nx.add_node; simpl.
    rewrite (has_node_null _ HG). discriminate.
  - apply IH; try assumption.
    apply (add_workflow_node_inv _ _ _ HG E).
Qed.

(** A descriptor without identifier: the builder raises, the claim of C2
    says that no error is raised. *)
Lemma missing_identifier_not_skipped :
  lookup "id" [("name", JStr "Start")] = None /\
  create_workflow_graph doc_no_id = Raise ValueError /\
  ~ (exists G, create_workflow_graph doc_no_id = Ok G).
Proof.
  split; [reflexivity|]. split; [reflexivity|].
  intros [G H]. discriminate H.
Qed.

(** C2, as the code has it. A node descriptor whose identifier field is
    absent is not skipped: [None] is handed to [add_node], which refuses
    it, so the builder raises and returns no graph. *)
Theorem missing_identifier_raises (wd : list (string * json))
  (l : list json) (nd : list (string * json)) :
  lookup "nodes" wd = Some (JArr l) ->
  In (JObj nd) l ->
  lookup "id" nd = None ->
  exists e, create_workflow_graph (JObj wd) = Raise e.
Proof.
  intros Hl Hin Hid. unfold create_workflow_graph, add_nodes.
  rewrite (get_default_present _ _ _ _ Hl). simpl.
  destruct (node_loop_missing_id nd l nx.empty node_inv_empty Hin Hid)
    as [e ->].
  exists e. reflexivity.
Qed.

Lemma missing_identifier_raises_witness :
  exists e, create_workflow_graph doc_no_id = Raise e.
Proof.
  apply (missing_identifier_raises
           [("nodes", JArr [JObj [("name", JStr "Start")]])]
           [JObj [("name", JStr "Start")]]
           [("name", JStr "Start")]).
  - reflexivity.
  - left; reflexivity.
  - reflexivity.
Defined.

Lemma foldM_total_on {A S} (body : S -> A -> result S) (l : list A) :
  (forall a, In a l -> forall s, exists s', body s a = Ok s') ->
  forall s, exists s', foldM body l s = Ok s'.
Proof.
  induction l as [|a l IH]; intros Hbody s; simpl; [eauto|].
  destruct (Hbody a (or_introl eq_refl) s) as [s1 ->]; simpl.
  apply IH. intros b Hb. apply Hbody. right; assumption.
Qed.

Lemma add_output_total source_node G output :
  exists G', add_output source_node G output = Ok G'.
Proof.
  rewrite add_output_flat. apply foldM_total.
  intros s a. destruct (add_connection_step source_node s a) as (G' & E & _).
  eauto.
Qed.

Lemma add_source_total G entry :
  is_dict (snd entry) = true -> exists G', add_source G entry = Ok G'.
Proof.
  unfold add_source. destruct (snd entry); try discriminate. intros _.
  apply foldM_total. intros s a. apply add_output_total.
Qed.

Lemma node_pos_origin :
  node_pos (JArr [JNum 0; JNum 0]) = Ok (0 / 100, - 0 / 100)%Q.
Proof. vm_compute. reflexivity. Qed.

(** The position of a list that starts with two numbers. *)
Lemma node_pos_numbers p0 p1 r x y :
  number p0 = Ok x -> number p1 = Ok y ->
  node_pos (JArr (p0 :: p1 :: r)) =
  if overflows (x / 100) then Raise OverflowError
  else if overflows (- y / 100) then Raise OverflowError
  else Ok (x / 100, - y / 100)%Q.
Proof.
  intros Hx Hy. unfold node_pos, div100. cbn [getitem nth_error bind].
  rewrite Hx. cbn [bind].
  destruct (overflows (x / 100)); cbn [bind]; [reflexivity|].
  rewrite Hy. cbn [bind].
  destruct (overflows (- y / 100)); reflexivity.
Qed.

Lemma add_workflow_node_total G node :
  node_well_formed node = true -> exists G', add_workflow_node G node = Ok G'.
Proof.
  destruct node as [| | | | |nd]; try discriminate. cbn [node_well_formed].
  intros H. apply andb_true_iff in H. destruct H as [H Hpos].
  apply andb_true_iff in H. destruct H as [Hid Hty].
  destruct (lookup "id" nd) as [[| | |s| |]|] eqn:Eid; try discriminate.
  assert (Hcolor : exists c,
            get_node_color (get_default "type" (JStr "unknown") nd) = Ok c).
  { unfold get_default.
    destruct (lookup "type" nd) as [[| | |t| |]|]; try discriminate;
      cbn [get_node_color]; eauto. }
  assert (Hp : exists p,
            node_pos (get_default "position" (JArr [JNum 0; JNum 0]) nd)
            = Ok p).
  { unfold get_default.
    destruct (lookup "position" nd)
      as [[| | | |[|[| |x| | |] [|[| |y| | |] r]]|]|]; try discriminate.
    - apply andb_true_iff in Hpos. destruct Hpos as [Hx Hy].
      apply negb_true_iff in Hx, Hy.
      rewrite (node_pos_numbers (JNum x) (JNum y) r x y eq_refl eq_refl),
        Hx, Hy. eauto.
    - rewrite node_pos_origin. eauto. }
  destruct Hcolor as [c Hc], Hp as [p Hp].
  cbn [add_workflow_node]. rewrite Hp. cbn [bind]. rewrite Hc. cbn [bind].
  unfold get. rewrite Eid. unfold nx.add_node. cbn [nx.hashable negb].
  destruct (nx.has_node G (JStr s)); eauto.
Qed.

(** The document [{}]: the nodes field is absent and the builder returns
    the empty graph; the claim of C3 asks for an error exactly when the
    field is absent or not a list. *)
Lemma absent_nodes_is_no_error :
  ~ ((exists e, create_workflow_graph doc_no_nodes_field = Raise e) <->
     nodes_absent_or_not_list []).
Proof.
  intros [_ H]. destruct (H I) as [e He]. discriminate He.
Qed.

(** C3, as the code has it. The builder never raises for a missing
    optional field: a document whose present fields are well-shaped is
    built without error whichever of [nodes], [connections], [name],
    [type] and [position] are missing.  An absent [nodes] field is read as
    the empty list and gives a graph without nodes, not an error.  A
    [nodes] value that is null, a boolean or a number raises [TypeError],
    one that is a non-empty string or object raises [AttributeError]. *)
Theorem missing_optional_fields_tolerated (wd : list (string * json)) :
  (well_formed wd = true ->
     exists G, create_workflow_graph (JObj wd) = Ok G) /\
  (well_formed wd = true -> lookup "nodes" wd = None ->
     exists G, create_workflow_graph (JObj wd) = Ok G /\ nx.nodes G = []) /\
  (forall v, lookup "nodes" wd = Some v ->
     v = JNull \/ (exists b, v = JBool b) \/ (exists q, v = JNum q) ->
     create_workflow_graph (JObj wd) = Raise TypeError) /\
  (forall v, lookup "nodes" wd = Some v ->
     (exists c s, v = JStr (String c s)) \/
     (exists kv d, v = JObj (kv :: d)) ->
     create_workflow_graph (JObj wd) = Raise AttributeError).
Proof.
  assert (Hbuild : well_formed wd = true ->
            exists G, create_workflow_graph (JObj wd) = Ok G).
  { unfold well_formed. intros H. apply andb_true_iff in H.
    destruct H as [Hn Hc].
    assert (Hnodes : exists G0,
               add_nodes (get_default "nodes" (JArr []) wd) = Ok G0).
    { unfold add_nodes, get_default.
      destruct (lookup "nodes" wd) as [[| | | |l|]|]; try discriminate; simpl.
      - apply foldM_total_on. intros a Ha s.
        apply add_workflow_node_total.
        rewrite forallb_forall in Hn. apply Hn; assumption.
      - eauto. }
    destruct Hnodes as [G0 E0].
    unfold create_workflow_graph. rewrite E0; simpl.
    unfold add_connections, get_default.
    destruct (lookup "connections" wd) as [[| | | | |cs]|]; try discriminate.
    - apply foldM_total_on. intros a Ha s. apply add_source_total.
      rewrite forallb_forall in Hc. apply Hc; assumption.
    - simpl. eauto. }
  split; [exact Hbuild|]. split; [|split].
  - intros Hwf Habs. destruct (Hbuild Hwf) as [G HG]. exists G.
    split; [assumption|].
    destruct (create_workflow_graph_phases _ _ HG)
      as (wd' & l & G0 & Ewd & El & E0 & _ & _ & _ & Hn & _).
    injection Ewd as <-.
    rewrite (get_default_absent _ _ _ Habs) in El. simpl in El.
    injection El as <-. simpl in E0. injection E0 as <-. exact Hn.
  - intros v Hv Hshape. unfold create_workflow_graph, add_nodes.
    rewrite (get_default_present _ _ _ _ Hv).
    destruct Hshape as [->|[[b ->]|[q ->]]]; reflexivity.
  - intros v Hv Hshape. unfold create_workflow_graph, add_nodes.
    rewrite (get_default_present _ _ _ _ Hv).
    destruct Hshape as [(c & s & ->)|(kv & d & ->)]; [reflexivity|].
    cbn [py_iter bind].
    destruct (items (kv :: d)) as [|e r] eqn:E.
    + apply py_dict_nil in E. discriminate E.
    + reflexivity.
Qed.

Lemma missing_optional_fields_tolerated_witness :
  well_formed [("nodes", JArr [node_desc "a" []; node_desc "b" []])] = true /\
  exists G,
    create_workflow_graph
      (JObj [("nodes", JArr [node_desc "a" []; node_desc "b" []])]) = Ok G.
Proof.
  split; [reflexivity|].
  apply (proj1 (missing_optional_fields_tolerated
                  [("nodes", JArr [node_desc "a" []; node_desc "b" []])])).
  reflexivity.
Defined.

(* ================================================================== *)
(** * LayoutResolver *)

Lemma node_lookup_update n a ns :
  existsb (fun p => nx.key_eqb (fst p) n) ns = true ->
  nx.node_lookup n (nx.update_attrs n a ns) = Some (Some a).
Proof.
  induction ns as [|[k v] ns IH]; simpl; [discriminate|].
  destruct (nx.key_eqb k n) eqn:E; simpl.
  - rewrite E. reflexivity.
  - rewrite E. exact IH.
Qed.

Lemma node_lookup_append n a ns :
  nx.hashable n = true ->
  existsb (fun p => nx.key_eqb (fst p) n) ns = false ->
  nx.node_lookup n (ns ++ [(n, Some a)]) = Some (Some a).
Proof.
  intros Hh. induction ns as [|[k v] ns IH]; simpl.
  - rewrite (key_eqb_refl _ Hh). reflexivity.
  - destruct (nx.key_eqb k n); simpl; [discriminate|exact IH].
Qed.

(** After [add_node] the node carries the attributes just given. *)
Lemma add_node_lookup G n a G' :
  nx.add_node G n a = Ok G' ->
  nx.node_lookup n (nx.nodes G') = Some (Some a).
Proof.
  unfold nx.add_node.
  destruct (nx.hashable n) eqn:Hh; simpl; [|discriminate].
  destruct (nx.has_node G n) eqn:Hn.
  - intros H; injection H as <-. simpl. apply node_lookup_update. exact Hn.
  - destruct n; try discriminate;
      (intros H; injection H as <-; simpl;
       apply node_lookup_append; [reflexivity|exact Hn]).
Qed.

Lemma node_lookup_update_other n' a' n ns r :
  nx.key_eqb n' n = false ->
  nx.node_lookup n ns = Some r ->
  nx.node_lookup n (nx.update_attrs n' a' ns) = Some r.
Proof.
  intros Hne. induction ns as [|[k v] ns IH]; simpl; [discriminate|].
  destruct (nx.key_eqb k n) eqn:E.
  - intros H. destruct (nx.key_eqb k n') eqn:E'; simpl; rewrite E.
    + apply key_eqb_sym in E'.
      rewrite (key_eqb_trans _ _ _ E' E) in Hne. discriminate.
    + exact H.
  - intros H. destruct (nx.key_eqb k n'); simpl; rewrite E; apply IH; exact H.
Qed.

Lemma node_lookup_app n ns ms r :
  nx.node_lookup n ns = Some r -> nx.node_lookup n (ns ++ ms) = Some r.
Proof.
  induction ns as [|[k v] ns IH]; simpl; [discriminate|].
  destruct (nx.key_eqb k n); auto.
Qed.

(** [add_node] under another identifier leaves the node as it is. *)
Lemma add_node_lookup_other G n' a' G' n r :
  nx.add_node G n' a' = Ok G' ->
  nx.key_eqb n' n = false ->
  nx.node_lookup n (nx.nodes G) = Some r ->
  nx.node_lookup n (nx.nodes G') = Some r.
Proof.
  unfold nx.add_node.
  destruct (nx.hashable n'); simpl; [|discriminate].
  destruct (nx.has_node G n').
  - intros H Hne Hl; injection H as <-. simpl.
    apply node_lookup_update_other; assumption.
  - destruct n'; try discriminate;
      (intros H Hne Hl; injection H as <-; simpl;
       apply node_lookup_app; assumption).
Qed.

Lemma node_loop_lookup_other n r post : forall G G',
  foldM add_workflow_node post G = Ok G' ->
  (forall node', In node' post -> nx.key_eqb (node_id node') n = false) ->
  nx.node_lookup n (nx.nodes G) = Some r ->
  nx.node_lookup n (nx.nodes G') = Some r.
Proof.
  induction post as [|node post IH]; intros G G' H Hlast Hl; simpl in H.
  - injection H as <-. exact Hl.
  - destruct (add_workflow_node G node) as [G1|] eqn:E; simpl in H;
      [|discriminate].
    apply (IH G1 G' H); [intros; apply Hlast; right; assumption|].
    pose proof (Hlast node (or_introl eq_refl)) as Hne.
    destruct node as [| | | | |nd']; try discriminate. simpl in E, Hne.
    destruct (node_pos _); simpl in E; [|discriminate].
    destruct (get_node_color _); simpl in E; [|discriminate].
    eapply add_node_lookup_other; eassumption.
Qed.

Lemma coord_of_attributes n a ns :
  (forall p, In p ns -> snd p <> None) ->
  nx.node_lookup n ns = Some (Some a) ->
  coord_of n (flat_map (fun p => match snd p with
                                 | Some a => [(fst p, pos a)]
                                 | None => []
                                 end) ns) = Some (pos a).
Proof.
  induction ns as [|[k [a0|]] ns IH]; simpl; intros Hall H.
  - discriminate.
  - destruct (nx.key_eqb k n).
    + injection H as ->. reflexivity.
    + apply IH; [intros; apply Hall; right; assumption|exact H].
  - elim (Hall (k, None) (or_introl eq_refl)). reflexivity.
Qed.

(** No built graph with a node is laid out by the spring layout: the
    node loop gives every node a ['pos'] attribute. *)
Lemma layout_from_attributes workflow_data G :
  create_workflow_graph workflow_data = Ok G ->
  nx.nodes G <> [] ->
  exists c coords, resolve_layout G = NodeAttributes (c :: coords).
Proof.
  intros H Hne.
  destruct (create_workflow_graph_phases _ _ H)
    as (wd & l & G0 & _ & _ & _ & _ & _ & _ & _ & Hinv).
  unfold resolve_layout, nx.get_node_attributes_pos.
  destruct (nx.nodes G) as [|[k [a|]] ns] eqn:E; [congruence| |].
  - simpl. eauto.
  - elim (inv_attrs _ Hinv (k, None)); [rewrite E; left|]; reflexivity.
Qed.

(** A descriptor with an authored position [[x, y]], the last one under
    its identifier, fixes the coordinate of its node, whatever the other
    descriptors carry. *)
Lemma authored_position_kept (wd : list (string * json)) (G : nx.DiGraph)
  (pre post : list json) (nd : list (string * json)) (x y : Q) :
  lookup "nodes" wd = Some (JArr (pre ++ JObj nd :: post)) ->
  create_workflow_graph (JObj wd) = Ok G ->
  lookup "position" nd = Some (JArr [JNum x; JNum y]) ->
  (forall node', In node' post ->
     nx.key_eqb (node_id node') (get "id" nd) = false) ->
  exists coords,
    resolve_layout G = NodeAttributes coords /\
    coord_of (get "id" nd) coords = Some (x / 100, - y / 100)%Q.
Proof.
  intros Hl H Hpos Hlast.
  destruct (create_workflow_graph_phases _ _ H)
    as (wd' & l & G0 & Ewd & El & E0 & _ & _ & _ & Hn & Hinv).
  injection Ewd as <-.
  rewrite (get_default_present _ _ _ _ Hl) in El. simpl in El.
  injection El as <-.
  rewrite foldM_app in E0.
  destruct (foldM add_workflow_node pre nx.empty) as [G1|];
    cbn [bind foldM] in E0; [|discriminate].
  destruct (add_workflow_node G1 (JObj nd)) as [G2|] eqn:E2;
    cbn [bind] in E0; [|discriminate].
  cbn [add_workflow_node] in E2.
  rewrite (get_default_present _ _ _ _ Hpos) in E2.
  rewrite (node_pos_numbers (JNum x) (JNum y) [] x y eq_refl eq_refl) in E2.
  destruct (overflows (x / 100)); cbn [bind] in E2; [discriminate|].
  destruct (overflows (- y / 100)); cbn [bind] in E2; [discriminate|].
  destruct (get_node_color _) as [c|]; cbn [bind] in E2; [|discriminate].
  apply add_node_lookup in E2.
  pose proof (node_loop_lookup_other _ _ _ _ _ E0 Hlast E2) as Hlk.
  rewrite <- Hn in Hlk.
  pose proof (coord_of_attributes _ _ _ (inv_attrs _ Hinv) Hlk) as Hc.
  cbn [pos] in Hc.
  exists (nx.get_node_attributes_pos G). split; [|exact Hc].
  unfold resolve_layout.
  destruct (nx.get_node_attributes_pos G) eqn:E; [|reflexivity].
  unfold nx.get_node_attributes_pos in E. rewrite E in Hc. discriminate.
Qed.

(** Node ["a"] at [[100, 200]], node ["b"] without position: the claim of
    C6 sends every node to the spring layout; the code keeps the
    attribute layout and the transformed position of ["a"]. *)
Lemma partial_positions_keep_authored :
  create_workflow_graph doc_partial_positions
  = Ok (graph_of doc_partial_positions) /\
  lookup "position" [("id", JStr "b")] = None /\
  resolve_layout (graph_of doc_partial_positions) <> SpringLayout 2 50 /\
  exists coords,
    resolve_layout (graph_of doc_partial_positions) = NodeAttributes coords /\
    coord_of (JStr "a") coords = Some (100 / 100, - 200 / 100)%Q.
Proof.
  split; [reflexivity|]. split; [reflexivity|]. split.
  - vm_compute. discriminate.
  - eexists. split; vm_compute; reflexivity.
Qed.

(** C6, as the code has it. Authored positions are never discarded for
    the graph as a whole: whatever the other descriptors carry, the
    layout of a built graph is read from the stored node attributes, not
    computed by the spring layout, and a node whose descriptor carries an
    authored position [[x, y]] has the coordinate [(x/100, -y/100)]. *)
Theorem authored_positions_not_discarded (wd : list (string * json))
  (G : nx.DiGraph) (pre post : list json) (nd : list (string * json))
  (x y : Q) :
  lookup "nodes" wd = Some (JArr (pre ++ JObj nd :: post)) ->
  create_workflow_graph (JObj wd) = Ok G ->
  lookup "position" nd = Some (JArr [JNum x; JNum y]) ->
  (forall node', In node' post ->
     nx.key_eqb (node_id node') (get "id" nd) = false) ->
  (forall k iterations, resolve_layout G <> SpringLayout k iterations) /\
  exists coords,
    resolve_layout G = NodeAttributes coords /\
    coord_of (get "id" nd) coords = Some (x / 100, - y / 100)%Q.
Proof.
  intros Hl H Hpos Hlast.
  destruct (authored_position_kept _ _ _ _ _ _ _ Hl H Hpos Hlast)
    as (coords & Hr & Hc).
  split; [|eauto].
  intros k iterations E. rewrite Hr in E. discriminate E.
Qed.

Lemma authored_positions_not_discarded_witness :
  lookup "position" [("id", JStr "b")] = None /\
  (forall k iterations,
     resolve_layout (graph_of doc_partial_positions)
     <> SpringLayout k iterations) /\
  exists coords,
    resolve_layout (graph_of doc_partial_positions) = NodeAttributes coords /\
    coord_of (JStr "a") coords = Some (100 / 100, - 200 / 100)%Q.
Proof.
  split; [reflexivity|].
  apply (authored_positions_not_discarded
           [("nodes",
             JArr [node_desc "a" [("position", JArr [JNum 100; JNum 200])];
                   node_desc "b" []])]
           (graph_of doc_partial_positions)
           [] [node_desc "b" []]
           [("id", JStr "a"); ("position", JArr [JNum 100; JNum 200])]
           100 200).
  - reflexivity.
  - reflexivity.
  - reflexivity.
  - intros node' [<-|[]]. reflexivity.
Defined.

(** C7. When every node descriptor carries an authored position
    [[x, y]], the resolved coordinate of each node is exactly
    [(x/100, -y/100)], for [[x, y]] the position of the descriptor that
    defines the node (the last one under its identifier). *)
Theorem authored_position_transform (wd : list (string * json))
  (l : list json) (G : nx.DiGraph) :
  lookup "nodes" wd = Some (JArr l) ->
  create_workflow_graph (JObj wd) = Ok G ->
  (forall node, In node l ->
     exists nd x y,
       node = JObj nd /\
       lookup "position" nd = Some (JArr [JNum x; JNum y])) ->
  forall pre node post,
    l = pre ++ node :: post ->
    (forall node', In node' post ->
       nx.key_eqb (node_id node') (node_id node) = false) ->
    exists nd x y coords,
      node = JObj nd /\
      lookup "position" nd = Some (JArr [JNum x; JNum y]) /\
      resolve_layout G = NodeAttributes coords /\
      coord_of (node_id node) coords = Some (x / 100, - y / 100)%Q.
Proof.
  intros Hl H Hall pre node post -> Hlast.
  destruct (Hall node) as (nd & x & y & -> & Hpos).
  { apply in_or_app. right. left. reflexivity. }
  destruct (authored_position_kept _ _ _ _ _ _ _ Hl H Hpos Hlast)
    as (coords & Hr & Hc).
  exists nd, x, y, coords. auto.
Qed.

Lemma authored_position_transform_witness :
  create_workflow_graph doc_positions = Ok (graph_of doc_positions) /\
  exists nd x y coords,
    node_desc "b" [("position", JArr [JNum 350; JNum (-50)])] = JObj nd /\
    lookup "position" nd = Some (JArr [JNum x; JNum y]) /\
    resolve_layout (graph_of doc_positions) = NodeAttributes coords /\
    coord_of (JStr "b") coords = Some (x / 100, - y / 100)%Q.
Proof.
  split; [reflexivity|].
  apply (authored_position_transform
           [("nodes",
             JArr [node_desc "a" [("position", JArr [JNum 100; JNum 200])];
                   node_desc "b" [("position", JArr [JNum 350; JNum (-50)])]])]
           _ (graph_of doc_positions) eq_refl eq_refl)
    with (pre := [node_desc "a" [("position", JArr [JNum 100; JNum 200])]])
         (post := @nil json).
  - intros node [<-|[<-|[]]]; do 3 eexists; split; reflexivity.
  - reflexivity.
  - intros node' [].
Defined.

(* ================================================================== *)
(** * Fallback renderer *)

Lemma rectangles_app cv cv' :
  rectangles (cv ++ cv') = (rectangles cv + rectangles cv')%nat.
Proof. unfold rectangles. rewrite filter_app, length_app. reflexivity. Qed.

(** One iteration draws one rectangle, or none when it raises before
    [draw.rectangle]. *)
Lemma draw_node_rectangles env cols cv i node :
  (rectangles (fst (draw_node env cols cv i node)) <= rectangles cv + 1)%nat /\
  (forall u, snd (draw_node env cols cv i node) = Ok u ->
     rectangles (fst (draw_node env cols cv i node)) = (rectangles cv + 1)%nat).
Proof.
  unfold draw_node. cbv zeta.
  destruct node as [| | | | |nd]; cbn [fst snd];
    try (split; [lia|discriminate]).
  destruct (c <- get_node_color _ ;; color_rgb c) as [rgb|]; cbn [fst snd];
    [|split; [lia|discriminate]].
  destruct (get_default "name" (JStr "Unnamed") nd) as [| | |name| |];
    cbn [fst snd];
    try (rewrite rectangles_app; cbn [rectangles filter length];
         split; [lia|discriminate]).
  match goal with
  | |- context [textbbox env ?s] =>
      destruct (textbbox env s) as [[[[x0 y0] x1] y1]|e']
  end; cbn [fst snd];
    [match goal with
     | |- context [draw_text env ?t] => destruct (draw_text env t)
     end; cbn [fst snd]|];
    rewrite !rectangles_app; cbn [rectangles filter length];
    (split; [lia|first [discriminate|intros; lia]]).
Qed.

Lemma draw_nodes_rectangles env cols nodes : forall cv i,
  (rectangles (fst (draw_nodes env cols cv i nodes))
   <= rectangles cv + length nodes)%nat /\
  (forall u, snd (draw_nodes env cols cv i nodes) = Ok u ->
     rectangles (fst (draw_nodes env cols cv i nodes))
     = (rectangles cv + length nodes)%nat).
Proof.
  induction nodes as [|node nodes IH]; intros cv i; simpl.
  - split; [lia|intros; lia].
  - pose proof (draw_node_rectangles env cols cv i node) as [Hle Heq].
    destruct (draw_node env cols cv i node) as [cv' [u|e]]; simpl in *.
    + specialize (Heq u eq_refl).
      destruct (IH cv' (S i)) as [IHle IHeq].
      split; [lia|]. intros u' Hu'. rewrite (IHeq u' Hu'). lia.
    + split; [lia|discriminate].
Qed.

(** C8. For a document with [N] node descriptors the fallback renderer
    draws at most [min(N, 20)] node rectangles, and exactly that many
    when it succeeds. *)
Theorem fallback_draws_at_most_20 (env : Env) (wd : list (string * json))
  (l : list json) (output_path : path) (width height : Z) :
  lookup "nodes" wd = Some (JArr l) ->
  let r := create_simple_diagram env (JObj wd) output_path width height in
  (rectangles (snd (fst r)) <= Nat.min (length l) 20)%nat /\
  (fst (fst r) = true -> rectangles (snd (fst r)) = Nat.min (length l) 20).
Proof.
  intros Hl r. subst r. unfold create_simple_diagram.
  destruct ((width <? 0)%Z || (height <? 0)%Z);
    cbn [fst snd rectangles filter length];
    [split; [lia|discriminate]|].
  destruct (negb (image_new env width height));
    cbn [fst snd rectangles filter length];
    [split; [lia|discriminate]|].
  rewrite (get_default_present _ _ _ _ Hl).
  destruct (negb (truthy (JArr l)));
    cbn [fst snd rectangles filter length];
    [split; [lia|discriminate]|].
  destruct (negb (fonts_load env));
    cbn [fst snd rectangles filter length];
    [split; [lia|discriminate]|].
  destruct (negb (draw_text env (Title _)));
    cbn [fst snd rectangles filter length];
    [split; [lia|discriminate]|].
  set (cv0 := [DrawText 10 10 _ "black"]).
  set (cols := Z.max 1 _).
  pose proof (draw_nodes_rectangles env cols (firstn 20 l) cv0 0) as [Hle Heq].
  rewrite length_firstn in Hle, Heq.
  assert (H0 : rectangles cv0 = 0%nat) by reflexivity.
  cbn [first20].
  destruct (draw_nodes env cols cv0 0 (firstn 20 l)) as [cv [u|e]];
    cbn [fst snd] in *.
  - specialize (Heq u eq_refl).
    destruct (negb (draw_text env (Footer _))); cbn [fst snd];
      [split; [lia|discriminate]|].
    destruct (img_save env output_path width height _); cbn [fst snd];
      rewrite ?rectangles_app; cbn [rectangles filter length];
      (split; [lia|first [discriminate|intros; lia]]).
  - split; [lia|discriminate].
Qed.

Lemma fallback_draws_at_most_20_witness :
  (rectangles (snd (fst (create_simple_diagram sample_env (doc_many 30)
                           "out.png" 800 600))) <= Nat.min 30 20)%nat /\
  (fst (fst (create_simple_diagram sample_env (doc_many 30)
               "out.png" 800 600)) = true ->
   rectangles (snd (fst (create_simple_diagram sample_env (doc_many 30)
                           "out.png" 800 600))) = Nat.min 30 20).
Proof.
  apply (fallback_draws_at_most_20 sample_env
           [("nodes", JArr (repeat (JObj [("type", JStr "Slack")]) 30))]
           (repeat (JObj [("type", JStr "Slack")]) 30) "out.png" 800 600).
  reflexivity.
Defined.

(* ================================================================== *)
(** * RenderPipeline on a graph without nodes *)

(** A built graph has no node only if the [nodes] value is falsy. *)
Lemma zero_nodes_falsy workflow_data G :
  create_workflow_graph workflow_data = Ok G ->
  nx.nodes G = [] ->
  exists wd,
    workflow_data = JObj wd /\
    truthy (get_default "nodes" (JArr []) wd) = false.
Proof.
  intros H Hz.
  destruct (create_workflow_graph_phases _ _ H)
    as (wd & l & G0 & -> & El & E0 & _ & _ & _ & Hn & _).
  exists wd. split; [reflexivity|].
  apply py_iter_nil. rewrite El. f_equal.
  destruct l as [|node l]; [reflexivity|].
  destruct (node_loop_inv _ _ _ node_inv_empty E0) as [_ Hne].
  elim Hne; [left; discriminate|]. rewrite <- Hn. exact Hz.
Qed.

(** C9. When the built graph has no node, the primary renderer and the
    fallback renderer both return failure before anything is drawn or
    written, [visualize_file] returns no path, and the command exits with
    status 1; no file is written at any stage. *)
Theorem zero_nodes_no_artifact (env : Env) (workflow_data : json)
  (G : nx.DiGraph) (file_path : path) (output_path : option path)
  (show : bool) (args : cli_args) :
  create_workflow_graph workflow_data = Ok G ->
  nx.nodes G = [] ->
  visualize_workflow_matplotlib env workflow_data output_path show
  = (None, []) /\
  (forall p width height,
     create_simple_diagram env workflow_data p width height
     = (false, [], [])) /\
  visualize_file env (RegularFile (Document workflow_data)) file_path
    output_path show = (None, []) /\
  main env (RegularFile (Document workflow_data)) args = (1%Z, []).
Proof.
  intros H Hz.
  destruct (zero_nodes_falsy _ _ H Hz) as (wd & -> & Hf).
  assert (Hprimary : forall out sh,
            visualize_workflow_matplotlib env (JObj wd) out sh = (None, [])).
  { intros out sh. unfold visualize_workflow_matplotlib.
    rewrite H, Hz. reflexivity. }
  assert (Hfallback : forall p width height,
            create_simple_diagram env (JObj wd) p width height
            = (false, [], [])).
  { intros p width height. unfold create_simple_diagram.
    rewrite Hf. simpl.
    destruct ((width <? 0)%Z || (height <? 0)%Z); [reflexivity|].
    destruct (negb (image_new env width height)); reflexivity. }
  assert (Hfile : forall fp out sh,
            visualize_file env (RegularFile (Document (JObj wd))) fp out sh
            = (None, [])).
  { intros fp out sh. unfold visualize_file.
    rewrite Hprimary, Hfallback. reflexivity. }
  split; [apply Hprimary|]. split; [exact Hfallback|].
  split; [apply Hfile|].
  unfold main. rewrite Hfile. reflexivity.
Qed.

Lemma zero_nodes_no_artifact_witness :
  create_workflow_graph doc_zero_nodes = Ok nx.empty /\
  visualize_file sample_env (RegularFile (Document doc_zero_nodes))
    "workflow.json" None true = (None, []) /\
  main sample_env (RegularFile (Document doc_zero_nodes))
    {| input := "workflow.json"; output := None; no_show := true;
       width := 800; height := 600; format := "png" |} = (1%Z, []).
Proof.
  split; [reflexivity|].
  apply (zero_nodes_no_artifact sample_env doc_zero_nodes nx.empty
           "workflow.json" None true
           {| input := "workflow.json"; output := None; no_show := true;
              width := 800; height := 600; format := "png" |}
           eq_refl eq_refl).
Defined.

(* ================================================================== *)
(** * End-to-end scenarios *)

Example scenario_edge_present :
  nx.edges (graph_of doc_a_to_b) = [(JStr "a", JStr "b")].
Proof. reflexivity. Qed.

Example scenario_dangling_target :
  length (nx.nodes (graph_of doc_dangling)) = 2%nat /\
  nx.edges (graph_of doc_dangling) = [].
Proof. split; reflexivity. Qed.

Example scenario_categories :
  _get_node_color "Slack" = node_colors action /\
  _get_node_color "IF" = node_colors condition /\
  _get_node_color "Webhook Trigger" = node_colors trigger /\
  _get_node_color "n8n-nodes-base.start" = node_colors default.
Proof. repeat split; reflexivity. Qed.

Example scenario_missing_id_falls_back :
  main sample_env (RegularFile (Document doc_no_id))
    {| input := "w.json"; output := Some "w.png"; no_show := true;
       width := 800; height := 600; format := "png" |}
  = (0%Z, ["w.png"]).
Proof. reflexivity. Qed.

(* ================================================================== *)
(** * GraphBuilder: the node set *)

Lemma update_attrs_keys n a ns :
  map fst (nx.update_attrs n a ns) = map fst ns.
Proof.
  unfold nx.update_attrs. rewrite map_map. apply map_ext.
  intros p. destruct (nx.key_eqb (fst p) n); reflexivity.
Qed.

Lemma has_node_keys G n :
  nx.has_node G n = existsb (fun k' => nx.key_eqb k' n) (map fst (nx.nodes G)).
Proof.
  unfold nx.has_node. induction (nx.nodes G) as [|p ns IH]; simpl;
    [reflexivity|]. rewrite IH. reflexivity.
Qed.

Lemma add_node_keys G n a G' :
  nx.add_node G n a = Ok G' ->
  map fst (nx.nodes G') = add_key (map fst (nx.nodes G)) n.
Proof.
  unfold nx.add_node, add_key. rewrite <- has_node_keys.
  destruct (nx.hashable n); simpl; [|discriminate].
  destruct (nx.has_node G n).
  - intros H; injection H as <-. simpl. apply update_attrs_keys.
  - destruct n; try discriminate;
      (intros H; injection H as <-; simpl; rewrite map_app; reflexivity).
Qed.

Lemma add_workflow_node_keys G node G' :
  add_workflow_node G node = Ok G' ->
  map fst (nx.nodes G') = add_key (map fst (nx.nodes G)) (node_id node).
Proof.
  destruct node as [| | | | |nd]; try discriminate. simpl.
  destruct (node_pos _); simpl; [|discriminate].
  destruct (get_node_color _); simpl; [|discriminate].
  apply add_node_keys.
Qed.

Lemma node_loop_keys l : forall G G',
  foldM add_workflow_node l G = Ok G' ->
  map fst (nx.nodes G') = fold_left add_key (map node_id l) (map fst (nx.nodes G)).
Proof.
  induction l as [|node l IH]; intros G G' H; simpl in H.
  - injection H as <-. reflexivity.
  - destruct (add_workflow_node G node) as [G1|] eqn:E; cbn [bind] in H;
      [|discriminate].
    cbn [map fold_left]. rewrite <- (add_workflow_node_keys _ _ _ E).
    apply IH. exact H.
Qed.

(** X1. The nodes of a built graph are the identifiers of the node
    descriptors in the order of their first occurrence: a repeated
    identifier keeps its first place and adds no node. *)
Theorem nodes_in_first_occurrence_order (wd : list (string * json))
  (l : list json) (G : nx.DiGraph) :
  lookup "nodes" wd = Some (JArr l) ->
  create_workflow_graph (JObj wd) = Ok G ->
  map fst (nx.nodes G) = first_occurrences (map node_id l).
Proof.
  intros Hl H.
  destruct (create_workflow_graph_phases _ _ H)
    as (wd' & l' & G0 & Ewd & El & E0 & _ & _ & _ & Hn & _).
  injection Ewd as <-.
  rewrite (get_default_present _ _ _ _ Hl) in El. simpl in El.
  injection El as <-.
  rewrite Hn. apply (node_loop_keys _ _ _ E0).
Qed.

Lemma nodes_in_first_occurrence_order_witness :
  create_workflow_graph doc_repeated_id = Ok (graph_of doc_repeated_id) /\
  map fst (nx.nodes (graph_of doc_repeated_id)) = [JStr "a"; JStr "b"].
Proof.
  split; [reflexivity|].
  apply (nodes_in_first_occurrence_order
           [("nodes", JArr [node_desc "a" [("name", JStr "first")];
                            node_desc "b" [];
                            node_desc "a" [("name", JStr "second")]])]
           _ (graph_of doc_repeated_id) eq_refl eq_refl).
Defined.

Lemma add_key_distinct ks k :
  distinct_keys ks = true -> distinct_keys (add_key ks k) = true.
Proof.
  unfold add_key. destruct (existsb _ ks) eqn:E; [auto|].
  induction ks as [|k0 r IH]; simpl in *; [reflexivity|].
  intros H. apply andb_true_iff in H. destruct H as [H0 Hr].
  apply orb_false_iff in E. destruct E as [E0 Er].
  rewrite existsb_app; simpl. rewrite E0, orb_false_r.
  apply negb_true_iff in H0. rewrite H0. simpl. apply IH; assumption.
Qed.

Lemma fold_add_key_distinct ids : forall ks,
  distinct_keys ks = true -> distinct_keys (fold_left add_key ids ks) = true.
Proof.
  induction ids as [|k ids IH]; intros ks H; simpl; [assumption|].
  apply IH. apply add_key_distinct. assumption.
Qed.

Lemma add_key_length ks k :
  (length ks <= length (add_key ks k) <= S (length ks))%nat.
Proof.
  unfold add_key. destruct (existsb _ ks); [lia|].
  rewrite length_app; simpl. lia.
Qed.

Lemma fold_add_key_length ids : forall ks,
  (length (fold_left add_key ids ks) <= length ks + length ids)%nat.
Proof.
  induction ids as [|k ids IH]; intros ks; simpl; [lia|].
  specialize (IH (add_key ks k)). pose proof (add_key_length ks k). lia.
Qed.

Lemma distinct_keys_app_absent ks k r :
  distinct_keys (ks ++ k :: r) = true ->
  existsb (fun k' => nx.key_eqb k' k) ks = false.
Proof.
  induction ks as [|k0 ks IH]; simpl; [reflexivity|].
  intros H. apply andb_true_iff in H. destruct H as [H0 Hr].
  apply negb_true_iff in H0. rewrite existsb_app in H0. simpl in H0.
  apply orb_false_iff in H0. destruct H0 as [_ H0].
  apply orb_false_iff in H0. destruct H0 as [H0 _].
  rewrite H0. simpl. apply IH. exact Hr.
Qed.

Lemma fold_add_key_fresh ids : forall ks,
  distinct_keys (ks ++ ids) = true -> fold_left add_key ids ks = ks ++ ids.
Proof.
  induction ids as [|k ids IH]; intros ks H; simpl.
  - rewrite app_nil_r. reflexivity.
  - unfold add_key at 2. rewrite (distinct_keys_app_absent _ _ _ H).
    rewrite IH; rewrite <- app_assoc; simpl; [reflexivity|exact H].
Qed.

(** X2. Node identifiers are unique within a built graph, and the graph
    has at most one node per descriptor. *)
Theorem node_identifiers_unique (wd : list (string * json)) (l : list json)
  (G : nx.DiGraph) :
  lookup "nodes" wd = Some (JArr l) ->
  create_workflow_graph (JObj wd) = Ok G ->
  distinct_keys (map fst (nx.nodes G)) = true /\
  (length (nx.nodes G) <= length l)%nat.
Proof.
  intros Hl H.
  destruct (create_workflow_graph_phases _ _ H)
    as (wd' & l' & G0 & Ewd & El & E0 & _ & _ & _ & Hn & _).
  injection Ewd as <-.
  rewrite (get_default_present _ _ _ _ Hl) in El. simpl in El.
  injection El as <-.
  pose proof (node_loop_keys _ _ _ E0) as Hk. simpl in Hk.
  rewrite Hn. split.
  - rewrite Hk. apply fold_add_key_distinct. reflexivity.
  - rewrite <- (length_map fst), Hk.
    pose proof (fold_add_key_length (map node_id l) []) as Hlen.
    rewrite length_map in Hlen. simpl in Hlen. exact Hlen.
Qed.

Lemma node_identifiers_unique_witness :
  distinct_keys (map fst (nx.nodes (graph_of doc_repeated_id))) = true /\
  (length (nx.nodes (graph_of doc_repeated_id)) <= 3)%nat.
Proof.
  apply (node_identifiers_unique
           [("nodes", JArr [node_desc "a" [("name", JStr "first")];
                            node_desc "b" [];
                            node_desc "a" [("name", JStr "second")]])]
           _ (graph_of doc_repeated_id) eq_refl eq_refl).
Defined.

(** X3. When the identifiers of the node descriptors are pairwise
    distinct, the built graph has exactly one node per descriptor, in
    document order. *)
Theorem distinct_descriptors_all_kept (wd : list (string * json))
  (l : list json) (G : nx.DiGraph) :
  lookup "nodes" wd = Some (JArr l) ->
  create_workflow_graph (JObj wd) = Ok G ->
  distinct_keys (map node_id l) = true ->
  map fst (nx.nodes G) = map node_id l /\
  length (nx.nodes G) = length l.
Proof.
  intros Hl H Hd.
  destruct (create_workflow_graph_phases _ _ H)
    as (wd' & l' & G0 & Ewd & El & E0 & _ & _ & _ & Hn & _).
  injection Ewd as <-.
  rewrite (get_default_present _ _ _ _ Hl) in El. simpl in El.
  injection El as <-.
  pose proof (node_loop_keys _ _ _ E0) as Hk. simpl in Hk.
  rewrite (fold_add_key_fresh _ [] Hd) in Hk. simpl in Hk.
  rewrite Hn. split; [exact Hk|].
  rewrite <- (length_map fst), Hk, length_map. reflexivity.
Qed.

Lemma distinct_descriptors_all_kept_witness :
  map fst (nx.nodes (graph_of doc_a_to_b)) = [JStr "a"; JStr "b"] /\
  length (nx.nodes (graph_of doc_a_to_b)) = 2%nat.
Proof.
  apply (distinct_descriptors_all_kept
           [("nodes", JArr [node_desc "a" []; node_desc "b" []]);
            ("connections", JObj [("a", connect_to ["b"])])]
           _ (graph_of doc_a_to_b) eq_refl eq_refl).
  reflexivity.
Defined.

(* ================================================================== *)
(** * GraphBuilder: node attributes *)

(** The attributes [add_workflow_node] computes for a descriptor. *)
Lemma add_workflow_node_attrs G nd G' :
  add_workflow_node G (JObj nd) = Ok G' ->
  exists a,
    nx.node_lookup (get "id" nd) (nx.nodes G') = Some (Some a) /\
    label a = get_default "name" (JStr "Unnamed") nd /\
    type a = get_default "type" (JStr "unknown") nd /\
    get_node_color (type a) = Ok (color a) /\
    node_pos (get_default "position" (JArr [JNum 0; JNum 0]) nd) = Ok (pos a).
Proof.
  simpl.
  destruct (node_pos _) as [p|] eqn:Ep; simpl; [|discriminate].
  destruct (get_node_color _) as [c|] eqn:Ec; simpl; [|discriminate].
  intros H. apply add_node_lookup in H.
  eexists. split; [exact H|]. simpl. auto.
Qed.

(** The attributes survive the descriptors that follow under other
    identifiers. *)
Lemma last_descriptor_attrs (wd : list (string * json)) (G : nx.DiGraph)
  (pre post : list json) (nd : list (string * json)) :
  lookup "nodes" wd = Some (JArr (pre ++ JObj nd :: post)) ->
  create_workflow_graph (JObj wd) = Ok G ->
  (forall node', In node' post ->
     nx.key_eqb (node_id node') (get "id" nd) = false) ->
  exists a,
    nx.node_lookup (get "id" nd) (nx.nodes G) = Some (Some a) /\
    label a = get_default "name" (JStr "Unnamed") nd /\
    type a = get_default "type" (JStr "unknown") nd /\
    get_node_color (type a) = Ok (color a) /\
    node_pos (get_default "position" (JArr [JNum 0; JNum 0]) nd) = Ok (pos a).
Proof.
  intros Hl H Hlast.
  destruct (create_workflow_graph_phases _ _ H)
    as (wd' & l & G0 & Ewd & El & E0 & _ & _ & _ & Hn & _).
  injection Ewd as <-.
  rewrite (get_default_present _ _ _ _ Hl) in El. simpl in El.
  injection El as <-.
  rewrite foldM_app in E0.
  destruct (foldM add_workflow_node pre nx.empty) as [G1|];
    cbn [bind foldM] in E0; [|discriminate].
  destruct (add_workflow_node G1 (JObj nd)) as [G2|] eqn:E2;
    cbn [bind] in E0; [|discriminate].
  destruct (add_workflow_node_attrs _ _ _ E2) as (a & Hlk & Ha).
  exists a. split; [|exact Ha].
  rewrite Hn. eapply node_loop_lookup_other; eassumption.
Qed.

(** X4. With repeated identifiers the last descriptor wins: the node
    carries the name, type, colour and position of the last descriptor
    registered under its identifier, with ["Unnamed"], ["unknown"] and
    [[0, 0]] standing in for missing fields. *)
Theorem last_descriptor_wins (wd : list (string * json)) (G : nx.DiGraph)
  (pre post : list json) (nd : list (string * json)) :
  lookup "nodes" wd = Some (JArr (pre ++ JObj nd :: post)) ->
  create_workflow_graph (JObj wd) = Ok G ->
  (forall node', In node' post ->
     nx.key_eqb (node_id node') (get "id" nd) = false) ->
  exists a,
    nx.node_lookup (get "id" nd) (nx.nodes G) = Some (Some a) /\
    label a = get_default "name" (JStr "Unnamed") nd /\
    type a = get_default "type" (JStr "unknown") nd /\
    get_node_color (type a) = Ok (color a) /\
    node_pos (get_default "position" (JArr [JNum 0; JNum 0]) nd) = Ok (pos a).
Proof. apply last_descriptor_attrs. Qed.

Lemma last_descriptor_wins_witness :
  exists a,
    nx.node_lookup (JStr "a") (nx.nodes (graph_of doc_repeated_id))
    = Some (Some a) /\
    label a = JStr "second" /\
    type a = JStr "unknown" /\
    get_node_color (type a) = Ok (color a) /\
    node_pos (JArr [JNum 0; JNum 0]) = Ok (pos a).
Proof.
  apply (last_descriptor_wins
           [("nodes", JArr [node_desc "a" [("name", JStr "first")];
                            node_desc "b" [];
                            node_desc "a" [("name", JStr "second")]])]
           (graph_of doc_repeated_id)
           [node_desc "a" [("name", JStr "first")]; node_desc "b" []]
           []
           [("id", JStr "a"); ("name", JStr "second")]
           eq_refl eq_refl).
  intros node' [].
Defined.

Lemma attributes_pos_keys (ns : list (json * option node_attrs)) :
  (forall p, In p ns -> snd p <> None) ->
  map fst (flat_map (fun p : json * option node_attrs => match snd p with
                              | Some a => [(fst p, pos a)]
                              | None => []
                              end) ns) = map fst ns.
Proof.
  induction ns as [|[k [a|]] ns IH]; simpl; intros Hall.
  - reflexivity.
  - f_equal. apply IH. intros; apply Hall; right; assumption.
  - elim (Hall (k, None) (or_introl eq_refl)). reflexivity.
Qed.

(** X5. The spring layout is never used: whenever the built graph has a
    node, the layout is the stored ['pos'] attributes and covers every
    node of the graph, in node order. *)
Theorem spring_layout_unreachable (workflow_data : json) (G : nx.DiGraph) :
  create_workflow_graph workflow_data = Ok G ->
  nx.nodes G <> [] ->
  exists coords,
    resolve_layout G = NodeAttributes coords /\
    map fst coords = map fst (nx.nodes G).
Proof.
  intros H Hne.
  destruct (create_workflow_graph_phases _ _ H)
    as (wd & l & G0 & _ & _ & _ & _ & _ & _ & _ & Hinv).
  pose proof (attributes_pos_keys _ (inv_attrs _ Hinv)) as Hk.
  exists (nx.get_node_attributes_pos G). split; [|exact Hk].
  unfold resolve_layout.
  destruct (nx.get_node_attributes_pos G) eqn:E; [|reflexivity].
  unfold nx.get_node_attributes_pos in E. rewrite E in Hk.
  destruct (nx.nodes G); [congruence|discriminate Hk].
Qed.

Lemma spring_layout_unreachable_witness :
  exists coords,
    resolve_layout (graph_of doc_a_to_b) = NodeAttributes coords /\
    map fst coords = map fst (nx.nodes (graph_of doc_a_to_b)).
Proof.
  apply (spring_layout_unreachable doc_a_to_b (graph_of doc_a_to_b) eq_refl).
  vm_compute. discriminate.
Defined.

(** X6. A node whose defining descriptor has no position field is laid
    out at the origin. *)
Theorem missing_position_at_origin (wd : list (string * json))
  (G : nx.DiGraph) (pre post : list json) (nd : list (string * json)) :
  lookup "nodes" wd = Some (JArr (pre ++ JObj nd :: post)) ->
  create_workflow_graph (JObj wd) = Ok G ->
  lookup "position" nd = None ->
  (forall node', In node' post ->
     nx.key_eqb (node_id node') (get "id" nd) = false) ->
  exists coords x y,
    resolve_layout G = NodeAttributes coords /\
    coord_of (get "id" nd) coords = Some (x, y) /\
    (x == 0)%Q /\ (y == 0)%Q.
Proof.
  intros Hl H Hpos Hlast.
  destruct (last_descriptor_attrs wd G pre post nd Hl H Hlast)
    as (a & Hlk & _ & _ & _ & Hp).
  rewrite (get_default_absent _ _ _ Hpos) in Hp. simpl in Hp.
  injection Hp as Hp.
  destruct (create_workflow_graph_phases _ _ H)
    as (wd' & l & G0 & _ & _ & _ & _ & _ & _ & _ & Hinv).
  pose proof (coord_of_attributes _ _ _ (inv_attrs _ Hinv) Hlk) as Hc.
  exists (nx.get_node_attributes_pos G), (fst (pos a)), (snd (pos a)).
  split; [|split; [|split]].
  - unfold resolve_layout.
    destruct (nx.get_node_attributes_pos G) eqn:E; [|reflexivity].
    unfold nx.get_node_attributes_pos in E. rewrite E in Hc. discriminate.
  - rewrite <- surjective_pairing. exact Hc.
  - rewrite <- Hp. reflexivity.
  - rewrite <- Hp. reflexivity.
Qed.

Lemma missing_position_at_origin_witness :
  lookup "position" [("id", JStr "b")] = None /\
  exists coords x y,
    resolve_layout (graph_of doc_partial_positions) = NodeAttributes coords /\
    coord_of (JStr "b") coords = Some (x, y) /\
    (x == 0)%Q /\ (y == 0)%Q.
Proof.
  split; [reflexivity|].
  apply (missing_position_at_origin
           [("nodes",
             JArr [node_desc "a" [("position", JArr [JNum 100; JNum 200])];
                   node_desc "b" []])]
           (graph_of doc_partial_positions)
           [node_desc "a" [("position", JArr [JNum 100; JNum 200])]]
           [] [("id", JStr "b")] eq_refl eq_refl eq_refl).
  intros node' [].
Defined.

(* ================================================================== *)
(** * GraphBuilder: where edges come from *)

Lemma connect_edges G c G' :
  connect G c = Ok G' ->
  nx.edges G' = nx.edges G \/
  exists cd, snd c = JObj cd /\
             nx.edges G' = nx.edges G ++ [(JStr (fst c), get "node" cd)].
Proof.
  unfold connect. destruct c as [src conn]. simpl.
  destruct conn as [| | | | |cd]; simpl;
    try (intros H; injection H as <-; left; reflexivity).
  destruct (truthy (get "node" cd) && nx.has_node G (JStr src)
            && nx.has_node G (get "node" cd)) eqn:Eg;
    [|intros H; injection H as <-; left; reflexivity].
  apply andb_true_iff in Eg. destruct Eg as [Eg Ht].
  apply andb_true_iff in Eg. destruct Eg as [_ Hs].
  rewrite (add_edge_between_nodes _ _ _ Hs Ht).
  destruct (nx.has_edge G (JStr src) (get "node" cd));
    intros H; injection H as <-; [left; reflexivity|].
  right. exists cd. split; reflexivity.
Qed.

Lemma flat_loop_edges l : forall G G',
  foldM connect l G = Ok G' ->
  (forall e, In e (nx.edges G') ->
     In e (nx.edges G) \/
     exists src cd, In (src, JObj cd) l /\ e = (JStr src, get "node" cd)) /\
  (length (nx.edges G') <= length (nx.edges G) + length l)%nat.
Proof.
  induction l as [|c l IH]; intros G G' H; simpl in H.
  - injection H as <-. split; [auto|simpl; lia].
  - destruct (connect G c) as [G1|] eqn:E; cbn [bind] in H; [|discriminate].
    destruct (IH _ _ H) as [IHin IHlen].
    destruct (connect_edges _ _ _ E) as [E1|(cd & Ec & E1)].
    + rewrite E1 in *. split.
      * intros e He. destruct (IHin e He) as [Hin|(src & cd & Hin & ->)];
          [left; assumption|].
        right. exists src, cd. split; [right; assumption|reflexivity].
      * simpl. lia.
    + rewrite E1 in *. split.
      * intros e He. destruct (IHin e He) as [Hin|(src & cd' & Hin & ->)].
        -- apply in_app_or in Hin. destruct Hin as [Hin|[<-|[]]];
             [left; assumption|].
           right. exists (fst c), cd. split; [|reflexivity].
           left. destruct c as [s j]. simpl in *. subst j. reflexivity.
        -- right. exists src, cd'. split; [right; assumption|reflexivity].
      * rewrite length_app in IHlen. simpl in *. lia.
Qed.

(** A reached descriptor whose endpoints are nodes and whose target is
    truthy has its edge in the result. *)
Lemma visited_descriptor_edge wd G src cd :
  create_workflow_graph (JObj wd) = Ok G ->
  In (src, JObj cd)
     (connection_descriptors (get_default "connections" (JObj []) wd)) ->
  nx.has_node G (JStr src) = true ->
  nx.has_node G (get "node" cd) = true ->
  truthy (get "node" cd) = true ->
  nx.has_edge G (JStr src) (get "node" cd) = true.
Proof.
  intros H Hin Hs Ht Htr.
  destruct (create_workflow_graph_phases _ _ H)
    as (wd' & l & G0 & Ewd & _ & _ & _ & Hc & _ & Hn & _).
  injection Ewd as <-.
  apply add_connections_flat in Hc.
  destruct (foldM_visit edge_steps connect steps_refl edge_steps_trans
              connect_steps _ _ _ _ Hc Hin) as (G1 & G2 & H1 & Hb & H2).
  assert (Hn1 : nx.nodes G1 = nx.nodes G).
  { rewrite (edge_steps_nodes _ _ H1). symmetry; exact Hn. }
  apply (edge_steps_has_edge _ _ _ _ H2).
  apply (add_connection_has_edge src G1 cd G2); try assumption;
    rewrite (has_node_same_nodes _ _ _ Hn1); assumption.
Qed.

Lemma filter_length_in {A} (f : A -> bool) (l : list A) (a : A) :
  In a l -> f a = true -> (1 <= length (filter f l))%nat.
Proof.
  induction l as [|b l IH]; simpl; [intros []|].
  intros [->|Hin] Ha.
  - rewrite Ha. simpl. lia.
  - destruct (f b); simpl; [lia|auto].
Qed.

(** X7. The edges of a built graph are exactly the connections listed:
    there is an edge from [source] to [target] if and only if the
    connection map lists a descriptor from [source] to [target], both
    are nodes and [target] is truthy. *)
Theorem edge_iff_descriptor (wd : list (string * json)) (G : nx.DiGraph)
  (source : string) (target : json) :
  create_workflow_graph (JObj wd) = Ok G ->
  nx.has_edge G (JStr source) target = true <->
  (1 <= descriptors_between (JObj wd) source target)%nat /\
  nx.has_node G (JStr source) = true /\
  nx.has_node G target = true /\
  truthy target = true.
Proof.
  intros H.
  destruct (create_workflow_graph_phases _ _ H)
    as (wd' & l & G0 & Ewd & _ & _ & HG0 & Hc & _ & Hn & Hinv).
  injection Ewd as <-.
  split.
  - intros He. unfold nx.has_edge in He. apply existsb_exists in He.
    destruct He as (e & Hin & Hsame).
    unfold nx.same_edge in Hsame. apply andb_true_iff in Hsame.
    destruct Hsame as [Hu Hv].
    pose proof (inv_endpoints _ Hinv e Hin) as [Hne1 Hne2].
    pose proof (inv_targets _ Hinv e Hin) as Htr.
    apply add_connections_flat in Hc.
    destruct (flat_loop_edges _ _ _ Hc) as [Hfrom _].
    destruct (Hfrom e Hin) as [Hin0|(src & cd & Hd & ->)].
    { rewrite (ninv_edges _ HG0) in Hin0. destruct Hin0. }
    simpl in *. apply String.eqb_eq in Hu. subst src.
    split; [|split; [|split]].
    + eapply filter_length_in; [exact Hd|].
      unfold links; simpl. rewrite String.eqb_refl. exact Hv.
    + exact Hne1.
    + eapply has_node_key_eqb; [apply key_eqb_sym; exact Hv|exact Hne2].
    + rewrite <- (truthy_key_eqb _ _ Hv). exact Htr.
  - intros (Hk & Hs & Ht & Htr). simpl in Hk.
    apply filter_length_pos in Hk. destruct Hk as ([s c] & Hin & Hl).
    unfold links in Hl; simpl in Hl. apply andb_true_iff in Hl.
    destruct Hl as [Es Hl]. apply String.eqb_eq in Es. subst s.
    destruct c as [| | | | |cd]; try discriminate.
    eapply has_edge_same;
      [|apply (visited_descriptor_edge wd G source cd H Hin Hs)].
    + unfold nx.same_edge; simpl. rewrite String.eqb_refl; simpl.
      apply key_eqb_sym; exact Hl.
    + eapply has_node_key_eqb; eassumption.
    + rewrite (truthy_key_eqb _ _ Hl). exact Htr.
Qed.

Lemma edge_iff_descriptor_witness :
  nx.has_edge (graph_of doc_a_to_b) (JStr "a") (JStr "b") = true <->
  (1 <= descriptors_between doc_a_to_b "a" (JStr "b"))%nat /\
  nx.has_node (graph_of doc_a_to_b) (JStr "a") = true /\
  nx.has_node (graph_of doc_a_to_b) (JStr "b") = true /\
  truthy (JStr "b") = true.
Proof.
  apply (edge_iff_descriptor
           [("nodes", JArr [node_desc "a" []; node_desc "b" []]);
            ("connections", JObj [("a", connect_to ["b"])])]
           (graph_of doc_a_to_b) "a" (JStr "b") eq_refl).
Defined.

(** X8. A built graph has at most as many edges as the connection map
    lists descriptors, and every edge starts at a string identifier, a
    key of the connection map: a node registered under a number is never
    the source of an edge. *)
Theorem edges_bounded_by_descriptors (wd : list (string * json))
  (G : nx.DiGraph) :
  create_workflow_graph (JObj wd) = Ok G ->
  (length (nx.edges G)
   <= length (connection_descriptors
                (get_default "connections" (JObj []) wd)))%nat /\
  (forall u v, In (u, v) (nx.edges G) ->
     exists source, u = JStr source /\
                    lookup source
                      (match get_default "connections" (JObj []) wd with
                       | JObj cs => cs
                       | _ => []
                       end) <> None).
Proof.
  intros H.
  destruct (create_workflow_graph_phases _ _ H)
    as (wd' & l & G0 & Ewd & _ & _ & HG0 & Hc & _ & _ & _).
  injection Ewd as <-.
  pose proof (add_connections_flat _ _ _ Hc) as Hf.
  destruct (flat_loop_edges _ _ _ Hf) as [Hfrom Hlen].
  rewrite (ninv_edges _ HG0) in Hlen, Hfrom. simpl in Hlen.
  split; [exact Hlen|].
  intros u v Hin.
  destruct (Hfrom _ Hin) as [[]|(src & cd & Hd & E)].
  injection E as -> ->. exists src. split; [reflexivity|].
  revert Hd. unfold connection_descriptors.
  destruct (get_default "connections" (JObj []) wd) as [| | | | |cs];
    try (intros []).
  intros Hd. apply in_flat_map in Hd. destruct Hd as ([k v] & Hk & Hd).
  apply in_map_iff in Hd. destruct Hd as (c & Ec & _).
  simpl in Ec. injection Ec as <- _.
  unfold lookup. unfold items in Hk.
  clear -Hk. induction (py_dict cs) as [|[k' v'] r IH]; [destruct Hk|].
  simpl. destruct (String.eqb k k') eqn:E; [discriminate|].
  destruct Hk as [Hk|Hk]; [|apply IH; exact Hk].
  injection Hk as -> _. rewrite String.eqb_refl in E. discriminate.
Qed.

Lemma edges_bounded_by_descriptors_witness :
  (length (nx.edges (graph_of doc_parallel)) <= 2)%nat /\
  (forall u v, In (u, v) (nx.edges (graph_of doc_parallel)) ->
     exists source, u = JStr source /\
                    lookup source [("a", connect_to ["b"; "b"])] <> None).
Proof.
  apply (edges_bounded_by_descriptors
           [("nodes", JArr [node_desc "a" []; node_desc "b" []]);
            ("connections", JObj [("a", connect_to ["b"; "b"])])]
           (graph_of doc_parallel) eq_refl).
Defined.

(* ================================================================== *)
(** * NodeClassifier: letter case and keyword position *)

Lemma ascii_lower_idempotent c : ascii_lower (ascii_lower c) = ascii_lower c.
Proof.
  destruct c as [b0 b1 b2 b3 b4 b5 b6 b7].
  destruct b0, b1, b2, b3, b4, b5, b6, b7; reflexivity.
Qed.

Lemma lower_idempotent s : lower (lower s) = lower s.
Proof.
  induction s as [|c s IH]; simpl; [reflexivity|].
  rewrite ascii_lower_idempotent, IH. reflexivity.
Qed.

Lemma lower_app s t : lower (s ++ t)%string = (lower s ++ lower t)%string.
Proof.
  induction s as [|c s IH]; simpl; [reflexivity|]. rewrite IH. reflexivity.
Qed.

Lemma prefix_app n post : String.prefix n (n ++ post)%string = true.
Proof.
  induction n as [|a n IH]; simpl.
  - destruct post; reflexivity.
  - destruct (ascii_dec a a) as [_|Hne]; [exact IH|]. elim Hne; reflexivity.
Qed.

Lemma py_in_prefix n h : String.prefix n h = true -> py_in n h = true.
Proof. intros H. destruct h; cbn [py_in]; rewrite H; reflexivity. Qed.

(** [needle in hay] holds wherever [needle] sits in [hay]. *)
Lemma py_in_app pre n post : py_in n (pre ++ n ++ post)%string = true.
Proof.
  induction pre as [|c pre IH]; cbn [append].
  - apply py_in_prefix, prefix_app.
  - cbn [py_in]. rewrite IH.
    match goal with |- (if ?b then _ else _) = _ => destruct b end;
      reflexivity.
Qed.

Lemma get_node_color_category node_type :
  exists c, _get_node_color node_type = node_colors c.
Proof.
  unfold _get_node_color.
  repeat match goal with
         | |- context [if ?b then _ else _] => destruct b
         end; eauto.
Qed.

(** X9. Classification ignores letter case: lower-casing a type tag
    does not change its colour. *)
Theorem classifier_ignores_case (node_type : string) :
  _get_node_color (lower node_type) = _get_node_color node_type.
Proof. unfold _get_node_color. rewrite lower_idempotent. reflexivity. Qed.

(** X10. A keyword counts wherever it sits in the type tag and in any
    letter case: a tag with "trigger" inside is a trigger, and a tag with
    "if" inside (as in "Notification") is a trigger or a condition, never
    a function, an action or the default. *)
Theorem keyword_anywhere (pre w post : string) :
  (lower w = "trigger" ->
   _get_node_color (pre ++ w ++ post)%string = node_colors trigger) /\
  (lower w = "if" ->
   _get_node_color (pre ++ w ++ post)%string = node_colors trigger \/
   _get_node_color (pre ++ w ++ post)%string = node_colors condition).
Proof.
  unfold _get_node_color. rewrite !lower_app. split; intros ->.
  - rewrite py_in_app. reflexivity.
  - rewrite (py_in_app _ "if"). simpl.
    destruct (py_in "trigger" _); auto.
Qed.

Lemma keyword_anywhere_witness :
  _get_node_color "Gmail Notification" = node_colors trigger \/
  _get_node_color "Gmail Notification" = node_colors condition.
Proof.
  apply (proj2 (keyword_anywhere "Gmail Not" "if" "ication")). reflexivity.
Defined.

Lemma color_rgb_category c :
  exists r g b,
    color_rgb (node_colors c) = Ok (r, g, b) /\
    (0 <= r <= 255)%Z /\ (0 <= g <= 255)%Z /\ (0 <= b <= 255)%Z.
Proof.
  destruct c; vm_compute; do 3 eexists;
    (split; [reflexivity|]); repeat split; discriminate.
Qed.

(** X11. The colour of every type tag converts to an RGB triple of
    bytes: the hexadecimal conversion of lines 225-226 never raises. *)
Theorem classifier_colour_converts (node_type : string) :
  exists r g b,
    color_rgb (_get_node_color node_type) = Ok (r, g, b) /\
    (0 <= r <= 255)%Z /\ (0 <= g <= 255)%Z /\ (0 <= b <= 255)%Z.
Proof.
  destruct (get_node_color_category node_type) as [c ->].
  apply color_rgb_category.
Qed.

(* ================================================================== *)
(** * Fallback renderer: what is drawn *)

Lemma string_length_append s t :
  String.length (s ++ t)%string = (String.length s + String.length t)%nat.
Proof.
  induction s as [|c s IH]; simpl; [reflexivity|]. rewrite IH. reflexivity.
Qed.

Lemma substring_length_le s : forall n m,
  (String.length (substring n m s) <= m)%nat.
Proof.
  induction s as [|c s IH]; intros n m.
  - destruct n, m; simpl; lia.
  - destruct n as [|n]; [destruct m as [|m]|]; simpl.
    + lia.
    + specialize (IH 0%nat m). lia.
    + apply IH.
Qed.

Lemma truncate_length name : (String.length (truncate name) <= 15)%nat.
Proof.
  unfold truncate. destruct (15 <? String.length name)%nat eqn:E.
  - rewrite string_length_append. simpl.
    pose proof (substring_length_le name 0 12). lia.
  - apply Nat.ltb_ge in E. exact E.
Qed.

Lemma rectangle_boxes_app cv cv' :
  rectangle_boxes (cv ++ cv') = rectangle_boxes cv ++ rectangle_boxes cv'.
Proof. unfold rectangle_boxes. apply flat_map_app. Qed.

Lemma labels_app cv cv' : labels (cv ++ cv') = labels cv ++ labels cv'.
Proof. unfold labels. apply flat_map_app. Qed.

Lemma color_rgb_total t : exists rgb, color_rgb (_get_node_color t) = Ok rgb.
Proof.
  destruct (get_node_color_category t) as [c ->].
  destruct (color_rgb_category c) as (r & g & b & -> & _). eauto.
Qed.

(** One iteration appends nothing, the rectangle of cell [i], or that
    rectangle and the truncated name; the last only for a drawable
    descriptor, and for every drawable one when PIL measures and draws
    every text. *)
Lemma draw_node_ops env cols cv i node :
  exists ops,
    fst (draw_node env cols cv i node) = cv ++ ops /\
    match snd (draw_node env cols cv i node) with
    | Ok _ =>
        drawable node = true /\
        rectangle_boxes ops = [cell cols i] /\
        labels ops = [truncate (display_name node)]
    | Raise _ =>
        (rectangle_boxes ops = [] \/ rectangle_boxes ops = [cell cols i]) /\
        labels ops = [] /\
        ((forall s, exists box, textbbox env s = Ok box) ->
         (forall t, draw_text env t = true) ->
         drawable node = false)
    end.
Proof.
  unfold draw_node, drawable, display_name, get_default. cbv zeta.
  destruct node as [| | | | |nd]; cbn [fst snd];
    try solve [exists []; rewrite app_nil_r; repeat split; auto].
  destruct (lookup "type" nd) as [[| | |t| |]|];
    cbn [get_node_color bind fst snd andb];
    try solve [exists []; rewrite app_nil_r; repeat split; auto].
  all: match goal with
       | |- context [color_rgb (_get_node_color ?t)] =>
           destruct (color_rgb_total t) as [rgb ->]
       end.
  all: destruct (lookup "name" nd) as [[| | |name| |]|]; cbn [fst snd andb];
    try solve [eexists; split; [reflexivity|];
               split; [right; reflexivity|]; split; [reflexivity|];
               intros; reflexivity].
  all: match goal with
       | |- context [textbbox ?e ?s] =>
           destruct (textbbox e s) as [[[[x0 y0] x1] y1]|e'] eqn:Etb
       end; cbn [fst snd];
    [ match goal with
      | |- context [draw_text ?e ?t] => destruct (draw_text e t) eqn:Edt
      end; cbn [fst snd];
      [ rewrite <- app_assoc; eexists; (split; [reflexivity|]);
        split; [reflexivity|]; split; reflexivity
      | eexists; (split; [reflexivity|]);
        split; [right; reflexivity|]; split; [reflexivity|];
        intros Htb Hdt; rewrite Hdt in Edt; discriminate Edt ]
    | eexists; (split; [reflexivity|]);
      split; [right; reflexivity|]; split; [reflexivity|];
      intros Htb Hdt;
      match type of Etb with
      | textbbox _ ?s = _ => destruct (Htb s) as [box Hb]
      end; rewrite Hb in Etb; discriminate Etb ].
Qed.

Lemma draw_nodes_ops env cols nodes : forall cv i,
  exists ops k,
    fst (draw_nodes env cols cv i nodes) = cv ++ ops /\
    (k <= length nodes)%nat /\
    rectangle_boxes ops = map (cell cols) (seq i k) /\
    Forall (fun s => (String.length s <= 15)%nat) (labels ops) /\
    match snd (draw_nodes env cols cv i nodes) with
    | Ok _ =>
        forallb drawable nodes = true /\
        k = length nodes /\
        labels ops = map (fun n => truncate (display_name n)) nodes
    | Raise _ =>
        (forall s, exists box, textbbox env s = Ok box) ->
        (forall t, draw_text env t = true) ->
        forallb drawable nodes = false
    end.
Proof.
  induction nodes as [|node nodes IH]; intros cv i; cbn [draw_nodes].
  - exists [], 0%nat. rewrite app_nil_r. cbn [fst snd].
    repeat split; auto.
  - destruct (draw_node_ops env cols cv i node) as (ops1 & E1 & H1).
    destruct (draw_node env cols cv i node) as [cv1 [u|e]]; cbn [fst snd] in *.
    + destruct H1 as (Hd & Hb & Hl). subst cv1.
      destruct (IH (cv ++ ops1) (S i)) as (ops2 & k & E2 & Hk & Hb2 & Hf & H2).
      exists (ops1 ++ ops2), (S k). rewrite app_assoc.
      split; [exact E2|]. split; [simpl; lia|].
      split; [rewrite rectangle_boxes_app, Hb, Hb2; reflexivity|].
      split.
      * rewrite labels_app, Hl. constructor; [apply truncate_length|exact Hf].
      * destruct (snd (draw_nodes env cols (cv ++ ops1) (S i) nodes)).
        -- destruct H2 as (Ha & -> & Hl2). cbn [forallb map length].
           rewrite Hd, Ha, labels_app, Hl, Hl2. auto.
        -- intros Htb Hdt. cbn [forallb]. rewrite (H2 Htb Hdt).
           apply andb_false_r.
    + destruct H1 as (Hb & Hl & Hd). subst cv1.
      assert (Hres : (forall s, exists box, textbbox env s = Ok box) ->
                     (forall t, draw_text env t = true) ->
                     forallb drawable (node :: nodes) = false).
      { intros Htb Hdt. cbn [forallb]. rewrite (Hd Htb Hdt). reflexivity. }
      destruct Hb as [Hb|Hb].
      * exists ops1, 0%nat. rewrite Hb, Hl. cbn [length seq map].
        repeat split; auto; try lia.
      * exists ops1, 1%nat. rewrite Hb, Hl. cbn [length seq map].
        repeat split; auto; try lia.
Qed.

(** Every run of the fallback renderer draws the cells [0 .. k-1] of
    the grid, for some [k <= 20], and labels of at most 15 characters. *)
Lemma fallback_canvas env workflow_data output_path width height :
  exists k,
    (k <= 20)%nat /\
    rectangle_boxes
      (snd (fst (create_simple_diagram env workflow_data output_path
                   width height)))
    = map (cell (grid_cols width)) (seq 0 k) /\
    Forall (fun s => (String.length s <= 15)%nat)
      (labels (snd (fst (create_simple_diagram env workflow_data output_path
                           width height)))).
Proof.
  assert (Hnone : forall cv : canvas,
            rectangle_boxes cv = [] -> labels cv = [] ->
            exists k, (k <= 20)%nat /\
              rectangle_boxes cv = map (cell (grid_cols width)) (seq 0 k) /\
              Forall (fun s => (String.length s <= 15)%nat) (labels cv)).
  { intros cv Hb Hl. exists 0%nat. rewrite Hb, Hl.
    split; [lia|]. split; [reflexivity|constructor]. }
  unfold create_simple_diagram.
  destruct ((width <? 0)%Z || (height <? 0)%Z); cbn [fst snd];
    [apply Hnone; reflexivity|].
  destruct (negb (image_new env width height)); cbn [fst snd];
    [apply Hnone; reflexivity|].
  destruct workflow_data as [| | | | |wd]; cbn [fst snd];
    try (apply Hnone; reflexivity).
  destruct (negb (truthy (get_default "nodes" (JArr []) wd))); cbn [fst snd];
    [apply Hnone; reflexivity|].
  destruct (negb (fonts_load env)); cbn [fst snd];
    [apply Hnone; reflexivity|].
  destruct (negb (draw_text env (Title _))); cbn [fst snd];
    [apply Hnone; reflexivity|].
  fold (grid_cols width).
  destruct (first20 _) as [[shown total]|] eqn:E20; cbn [fst snd];
    [|apply Hnone; reflexivity].
  assert (Hshown : (length shown <= 20)%nat).
  { revert E20. unfold first20.
    destruct (get_default "nodes" (JArr []) wd) as [| | |s|l|];
      try discriminate; intros E.
    - assert (H' : length shown = length (firstn 20 (chars s)))
        by congruence.
      rewrite H'. apply firstn_le_length.
    - assert (H' : length shown = length (firstn 20 l)) by congruence.
      rewrite H'. apply firstn_le_length. }
  match goal with
  | |- context [draw_nodes env ?c ?cv0 0 shown] =>
      destruct (draw_nodes_ops env c shown cv0 0)
        as (ops & k & Eops & Hk & Hb & Hf & _);
      destruct (draw_nodes env c cv0 0 shown) as [cv [u|e]]
  end; cbn [fst snd] in *; subst cv.
  - exists k. split; [lia|].
    destruct (negb (draw_text env (Footer total))); cbn [fst snd];
      [rewrite !rectangle_boxes_app, !labels_app, Hb;
       cbn [rectangle_boxes labels flat_map app]; auto|].
    destruct (img_save env output_path width height _); cbn [fst snd];
      rewrite !rectangle_boxes_app, !labels_app, Hb;
      cbn [rectangle_boxes labels flat_map app];
      rewrite !app_nil_r; auto.
  - exists k. split; [lia|].
    rewrite !rectangle_boxes_app, !labels_app, Hb;
      cbn [rectangle_boxes labels flat_map app]; auto.
Qed.

(** X12. The fallback renderer never draws a node label of more than
    15 characters. *)
Theorem fallback_labels_fit (env : Env) (workflow_data : json)
  (output_path : path) (width height : Z) (s : string) :
  In s (labels (snd (fst (create_simple_diagram env workflow_data output_path
                            width height)))) ->
  (String.length s <= 15)%nat.
Proof.
  destruct (fallback_canvas env workflow_data output_path width height)
    as (k & _ & _ & Hf).
  rewrite Forall_forall in Hf. apply Hf.
Qed.

Lemma fallback_labels_fit_witness :
  In "A very long ..."
     (labels (snd (fst (create_simple_diagram sample_env doc_long_name
                          "out.png" 800 600)))) /\
  (String.length "A very long ..." <= 15)%nat.
Proof.
  split; [left; reflexivity|].
  apply (fallback_labels_fit sample_env doc_long_name "out.png" 800 600).
  left; reflexivity.
Defined.



Lemma sample_env_completes output_path :
  pil_completes sample_env output_path 800 600.
Proof.
  unfold pil_completes. cbn [sample_env image_new fonts_load textbbox
                             draw_text img_save].
  repeat split; eauto.
Qed.

(** The fallback renderer on drawable descriptors. *)
Lemma fallback_completes (env : Env) (wd : list (string * json))
  (l : list json) (output_path : path) (width height : Z) :
  lookup "nodes" wd = Some (JArr l) ->
  l <> [] ->
  forallb drawable (firstn 20 l) = true ->
  (0 <= width)%Z -> (0 <= height)%Z ->
  pil_completes env output_path width height ->
  exists cv,
    create_simple_diagram env (JObj wd) output_path width height
    = (true,
       cv ++ [DrawText 10 (height - 30) (Footer (length l)) "gray"],
       [output_path]) /\
    rectangle_boxes cv
    = map (cell (grid_cols width)) (seq 0 (Nat.min (length l) 20)) /\
    labels cv = map (fun n => truncate (display_name n)) (firstn 20 l).
Proof.
  intros Hl Hne Hd Hw Hh (Hnew & Hfonts & Htb & Hdt & Hsave).
  unfold create_simple_diagram.
  assert (Hdim : ((width <? 0)%Z || (height <? 0)%Z) = false).
  { apply orb_false_iff. split; apply Z.ltb_ge; assumption. }
  rewrite Hdim, Hnew, Hfonts, (get_default_present _ _ _ _ Hl).
  assert (Htr : truthy (JArr l) = true) by (destruct l; [congruence|reflexivity]).
  rewrite Htr, !Hdt. cbn [negb first20]. fold (grid_cols width).
  match goal with
  | |- context [draw_nodes env ?c ?cv0 0 ?shown] =>
      destruct (draw_nodes_ops env c shown cv0 0)
        as (ops & k & Eops & Hk & Hb & _ & Hres);
      destruct (draw_nodes env c cv0 0 shown) as [cv [u|e]]
  end; cbn [fst snd] in *.
  - destruct Hres as (_ & -> & Hlab). subst cv.
    rewrite Hdt. cbn [negb]. rewrite Hsave.
    eexists. split; [reflexivity|].
    rewrite rectangle_boxes_app, labels_app, Hb, Hlab.
    rewrite length_firstn, Nat.min_comm. split; reflexivity.
  - rewrite (Hres Htb Hdt) in Hd. discriminate Hd.
Qed.

(** X14. On a non-empty node list whose first 20 descriptors are
    objects with a string (or no) type and a string (or no) name, with an
    image size that is not negative, and when PIL completes its calls
    (the image of that size, the font, measuring and drawing every text,
    saving at the output path), the fallback renderer succeeds: it draws
    the cells [0 .. min(N, 20) - 1], labels them with the truncated names
    in document order, ends with a footer that reports the full count
    [N], and writes the output path. *)
Theorem fallback_succeeds (env : Env) (wd : list (string * json))
  (l : list json) (output_path : path) (width height : Z) :
  lookup "nodes" wd = Some (JArr l) ->
  l <> [] ->
  forallb drawable (firstn 20 l) = true ->
  (0 <= width)%Z -> (0 <= height)%Z ->
  pil_completes env output_path width height ->
  exists cv,
    create_simple_diagram env (JObj wd) output_path width height
    = (true,
       cv ++ [DrawText 10 (height - 30) (Footer (length l)) "gray"],
       [output_path]) /\
    rectangle_boxes cv
    = map (cell (grid_cols width)) (seq 0 (Nat.min (length l) 20)) /\
    labels cv = map (fun n => truncate (display_name n)) (firstn 20 l).
Proof. apply fallback_completes. Qed.

Lemma fallback_succeeds_witness :
  exists cv,
    create_simple_diagram sample_env (doc_many 30) "out.png" 800 600
    = (true, cv ++ [DrawText 10 (600 - 30) (Footer 30) "gray"], ["out.png"]) /\
    rectangle_boxes cv = map (cell (grid_cols 800)) (seq 0 (Nat.min 30 20)) /\
    labels cv
    = map (fun n => truncate (display_name n))
        (firstn 20 (repeat (JObj [("type", JStr "Slack")]) 30)).
Proof.
  apply (fallback_succeeds sample_env
           [("nodes", JArr (repeat (JObj [("type", JStr "Slack")]) 30))]
           (repeat (JObj [("type", JStr "Slack")]) 30) "out.png" 800 600).
  - reflexivity.
  - discriminate.
  - reflexivity.
  - discriminate.
  - discriminate.
  - apply sample_env_completes.
Defined.

(* ================================================================== *)
(** * Fallback renderer: the grid *)

Lemma nth_error_map_seq {A} (f : nat -> A) k : forall s i b,
  nth_error (map f (seq s k)) i = Some b -> b = f (s + i)%nat /\ (i < k)%nat.
Proof.
  induction k as [|k IH]; intros s i b; simpl.
  - destruct i; discriminate.
  - destruct i as [|i]; simpl.
    + intros H; injection H as <-. rewrite Nat.add_0_r. split; [reflexivity|lia].
    + intros H. destruct (IH _ _ _ H) as [-> Hi].
      rewrite Nat.add_succ_r. split; [reflexivity|lia].
Qed.

(** Different indices have disjoint cells. *)
Lemma cells_disjoint cols i j :
  (1 <= cols)%Z -> i <> j -> disjoint_boxes (cell cols i) (cell cols j).
Proof.
  intros Hc Hij. unfold disjoint_boxes, cell, node_width, node_height,
    margin, start_y.
  pose proof (Z.div_mod (Z.of_nat i) cols ltac:(lia)) as Hi.
  pose proof (Z.div_mod (Z.of_nat j) cols ltac:(lia)) as Hj.
  pose proof (Z.mod_pos_bound (Z.of_nat i) cols ltac:(lia)) as Bi.
  pose proof (Z.mod_pos_bound (Z.of_nat j) cols ltac:(lia)) as Bj.
  remember (Z.of_nat i / cols)%Z as ri. remember (Z.of_nat j / cols)%Z as rj.
  remember (Z.of_nat i mod cols)%Z as ci.
  remember (Z.of_nat j mod cols)%Z as cj.
  destruct (Z.lt_trichotomy ri rj) as [Hlt|[Heq|Hgt]]; [lia| |lia].
  subst rj. assert (ci <> cj) by lia. lia.
Qed.

(** The cells fit between the margins when the image is wide enough for
    one column. *)
Lemma cell_in_width width i :
  (180 <= width)%Z ->
  let '(x0, y0, x1, y1) := cell (grid_cols width) i in
  (margin <= x0 /\ x1 <= width - 2 * margin /\ start_y <= y0)%Z.
Proof.
  intros Hw. unfold cell, grid_cols, node_width, node_height, margin, start_y.
  assert (Hq : (1 <= (width - 2 * 20) / (120 + 20))%Z).
  { apply Z.div_le_lower_bound; lia. }
  rewrite Z.max_r by lia.
  set (cols := ((width - 2 * 20) / (120 + 20))%Z) in *.
  pose proof (Z.mod_pos_bound (Z.of_nat i) cols ltac:(lia)) as Bi.
  assert (Hr : (0 <= Z.of_nat i / cols)%Z) by (apply Z.div_pos; lia).
  assert (Hm : (cols * (120 + 20) <= width - 2 * 20)%Z).
  { unfold cols. rewrite Z.mul_comm. apply Z.mul_div_le. lia. }
  repeat split; nia.
Qed.

(** X15. The node rectangles of the fallback renderer never overlap:
    any two rectangles drawn in one run share no point. *)
Theorem fallback_rectangles_disjoint (env : Env) (workflow_data : json)
  (output_path : path) (width height : Z) (i j : nat)
  (b1 b2 : Z * Z * Z * Z) :
  i <> j ->
  nth_error (rectangle_boxes
               (snd (fst (create_simple_diagram env workflow_data
                            output_path width height)))) i = Some b1 ->
  nth_error (rectangle_boxes
               (snd (fst (create_simple_diagram env workflow_data
                            output_path width height)))) j = Some b2 ->
  disjoint_boxes b1 b2.
Proof.
  intros Hij.
  destruct (fallback_canvas env workflow_data output_path width height)
    as (k & _ & -> & _).
  intros H1 H2.
  apply nth_error_map_seq in H1, H2. destruct H1 as [-> _], H2 as [-> _].
  apply cells_disjoint; [|exact Hij].
  unfold grid_cols. lia.
Qed.

Lemma fallback_rectangles_disjoint_witness :
  disjoint_boxes (20, 60, 140, 100)%Z (160, 60, 280, 100)%Z.
Proof.
  apply (fallback_rectangles_disjoint sample_env (doc_many 3) "out.png"
           800 600 0 1).
  - discriminate.
  - reflexivity.
  - reflexivity.
Defined.

(** X16. When the image is at least 180 pixels wide, every node
    rectangle of the fallback renderer lies between the left margin and
    [width - 2 * margin], below the title line. *)
Theorem fallback_rectangles_in_width (env : Env) (workflow_data : json)
  (output_path : path) (width height : Z) (x0 y0 x1 y1 : Z) :
  (180 <= width)%Z ->
  In (x0, y0, x1, y1)
     (rectangle_boxes
        (snd (fst (create_simple_diagram env workflow_data output_path
                     width height)))) ->
  (margin <= x0 /\ x1 <= width - 2 * margin /\ start_y <= y0)%Z.
Proof.
  intros Hw.
  destruct (fallback_canvas env workflow_data output_path width height)
    as (k & _ & -> & _).
  intros Hin. apply in_map_iff in Hin. destruct Hin as (i & E & _).
  pose proof (cell_in_width width i Hw) as Hc. rewrite E in Hc. exact Hc.
Qed.

Lemma fallback_rectangles_in_width_witness :
  (margin <= 160 /\ 280 <= 800 - 2 * margin /\ start_y <= 60)%Z.
Proof.
  apply (fallback_rectangles_in_width sample_env (doc_many 3) "out.png"
           800 600 160 60 280 100).
  - discriminate.
  - right; left; reflexivity.
Defined.

(* ================================================================== *)
(** * RenderPipeline: orchestration *)

(** X17. [visualize_file] returns a path exactly when the file holds a
    parsed document and the primary renderer returned a path or the
    fallback renderer returned [True]; the path is then the output path
    (the given one, or the input path with suffix [.png]). *)
Theorem visualize_file_result (env : Env) (entry : fs_entry)
  (file_path : path) (output_path : option path) (show : bool) (r : path) :
  let chosen := match output_path with
                | Some p => p
                | None => with_suffix env file_path ".png"
                end in
  fst (visualize_file env entry file_path output_path show) = Some r <->
  exists workflow_data,
    entry = RegularFile (Document workflow_data) /\
    r = chosen /\
    (fst (visualize_workflow_matplotlib env workflow_data (Some chosen) show)
     = Some chosen \/
     fst (visualize_workflow_matplotlib env workflow_data (Some chosen) show)
     = None /\
     fst (fst (create_simple_diagram env workflow_data chosen 800 600))
     = true).
Proof.
  intros chosen. unfold visualize_file. fold chosen.
  assert (Hprim : forall wd,
            fst (visualize_workflow_matplotlib env wd (Some chosen) show)
            = Some chosen \/
            fst (visualize_workflow_matplotlib env wd (Some chosen) show)
            = None).
  { intros wd. unfold visualize_workflow_matplotlib.
    destruct (create_workflow_graph wd) as [G|]; [|right; reflexivity].
    destruct (Nat.eqb _ 0); [right; reflexivity|].
    destruct (matplotlib_draw env G _ wd (Some chosen) show) as [[|] files];
      [left|right]; reflexivity. }
  split.
  - destruct entry as [| |[|wd]]; try discriminate.
    intros H. exists wd. split; [reflexivity|].
    destruct (Hprim wd) as [Hp|Hp];
      destruct (visualize_workflow_matplotlib env wd (Some chosen) show)
        as [[p|] w]; cbn [fst] in *; try discriminate.
    + injection Hp as ->. injection H as <-. auto.
    + destruct (create_simple_diagram env wd chosen 800 600)
        as [[[|] cv] w']; cbn [fst] in *; [|discriminate].
      injection H as <-. auto.
  - intros (wd & -> & -> & H).
    destruct (visualize_workflow_matplotlib env wd (Some chosen) show)
      as [[p|] w]; cbn [fst] in *.
    + destruct H as [H|[H _]]; [exact H|discriminate H].
    + destruct H as [H|[_ H]]; [discriminate H|].
      destruct (create_simple_diagram env wd chosen 800 600)
        as [[ok cv] w']; cbn [fst] in *. subst ok. reflexivity.
Qed.

Lemma visualize_file_result_witness :
  fst (visualize_file sample_env (RegularFile (Document doc_a_to_b))
         "w.json" None true) = Some "w.png".
Proof.
  apply (proj2 (visualize_file_result sample_env
                  (RegularFile (Document doc_a_to_b)) "w.json" None true
                  "w.png")).
  exists doc_a_to_b. split; [reflexivity|]. split; [reflexivity|].
  left. reflexivity.
Defined.

(** X18. When the primary renderer returns no path, for whatever
    reason, the document has a non-empty node list whose first 20
    descriptors are drawable, and PIL completes its calls for an 800 by
    600 image saved at the output path, the fallback renderer rescues
    the run: [visualize_file] returns the output path (the given one, or
    the input path with suffix [.png]) and has written it, and the
    command, with the output path it chooses with or without
    [--output], exits with status 0 and has written that path. *)
Theorem fallback_rescues (env : Env) (wd : list (string * json))
  (l : list json) :
  lookup "nodes" wd = Some (JArr l) ->
  l <> [] ->
  forallb drawable (firstn 20 l) = true ->
  (forall (file_path : path) (output_path : option path) (show : bool),
     let out := match output_path with
                | Some p => p
                | None => with_suffix env file_path ".png"
                end in
     pil_completes env out 800 600 ->
     fst (visualize_workflow_matplotlib env (JObj wd) (Some out) show)
     = None ->
     fst (visualize_file env (RegularFile (Document (JObj wd))) file_path
            output_path show) = Some out /\
     In out (snd (visualize_file env (RegularFile (Document (JObj wd)))
                    file_path output_path show))) /\
  (forall (args : cli_args),
     let out :=
       match output args with
       | Some p =>
           if String.eqb p ""
           then with_suffix env (input args) ("." ++ format args)%string
           else p
       | None => with_suffix env (input args) ("." ++ format args)%string
       end in
     pil_completes env out 800 600 ->
     fst (visualize_workflow_matplotlib env (JObj wd) (Some out)
            (negb (no_show args))) = None ->
     fst (main env (RegularFile (Document (JObj wd))) args) = 0%Z /\
     In out (snd (main env (RegularFile (Document (JObj wd))) args))).
Proof.
  intros Hl Hne Hd.
  assert (Hfile : forall file_path output_path show,
    let out := match output_path with
               | Some p => p
               | None => with_suffix env file_path ".png"
               end in
    pil_completes env out 800 600 ->
    fst (visualize_workflow_matplotlib env (JObj wd) (Some out) show)
    = None ->
    fst (visualize_file env (RegularFile (Document (JObj wd))) file_path
           output_path show) = Some out /\
    In out (snd (visualize_file env (RegularFile (Document (JObj wd)))
                   file_path output_path show))).
  { intros file_path output_path show out Hpil Hprim.
    destruct (fallback_completes env wd l out 800 600 Hl Hne Hd
                ltac:(discriminate) ltac:(discriminate) Hpil)
      as (cv & Ecsd & _).
    unfold visualize_file. fold out.
    destruct (visualize_workflow_matplotlib env (JObj wd) (Some out) show)
      as [[p|] w]; cbn [fst] in Hprim; [discriminate|].
    rewrite Ecsd. cbn [fst snd]. split; [reflexivity|].
    apply in_or_app. right. left. reflexivity. }
  split; [exact Hfile|].
  intros args out Hpil Hprim.
  destruct (Hfile (input args) (Some out) (negb (no_show args)) Hpil Hprim)
    as [Hf Hin].
  unfold main. fold out.
  destruct (visualize_file env (RegularFile (Document (JObj wd))) (input args)
              (Some out) (negb (no_show args))) as [[p|] w];
    cbn [fst snd] in *; [|discriminate].
  split; [reflexivity|exact Hin].
Qed.

Lemma fallback_rescues_witness :
  create_workflow_graph doc_no_id = Raise ValueError /\
  fst (visualize_file sample_env (RegularFile (Document doc_no_id)) "w.json"
         None true) = Some "w.png" /\
  In "w.png"
     (snd (visualize_file sample_env (RegularFile (Document doc_no_id))
             "w.json" None true)).
Proof.
  split; [reflexivity|].
  apply (proj1 (fallback_rescues sample_env
                  [("nodes", JArr [JObj [("name", JStr "Start")]])]
                  [JObj [("name", JStr "Start")]]
                  eq_refl ltac:(discriminate) eq_refl)
           "w.json" None true).
  - apply sample_env_completes.
  - reflexivity.
Defined.

(** X19. The command ignores [--width] and [--height]: its exit code
    and the files written do not depend on them, the fallback renderer
    always draws on 800 by 600. *)
Theorem cli_size_ignored (env : Env) (entry : fs_entry) (args : cli_args)
  (width' height' : Z) :
  main env entry
    {| input := input args; output := output args; no_show := no_show args;
       width := width'; height := height'; format := format args |}
  = main env entry args.
Proof. destruct entry; reflexivity. Qed.

(** The primary renderer returns the output path exactly when the graph
    builds, has a node and the matplotlib stage completes; else [None]. *)
Lemma primary_result env workflow_data out show :
  (fst (visualize_workflow_matplotlib env workflow_data (Some out) show)
   = Some out /\
   exists G,
     create_workflow_graph workflow_data = Ok G /\
     nx.nodes G <> [] /\
     fst (matplotlib_draw env G (resolve_layout G) workflow_data (Some out)
            show) = true) \/
  (fst (visualize_workflow_matplotlib env workflow_data (Some out) show)
   = None /\
   ~ exists G,
       create_workflow_graph workflow_data = Ok G /\
       nx.nodes G <> [] /\
       fst (matplotlib_draw env G (resolve_layout G) workflow_data (Some out)
              show) = true).
Proof.
  unfold visualize_workflow_matplotlib.
  destruct (create_workflow_graph workflow_data) as [G|e] eqn:E.
  - destruct (nx.nodes G) as [|p ns] eqn:En; cbn [length Nat.eqb].
    + right. split; [reflexivity|]. intros (G' & E' & Hne & _).
      injection E' as <-. congruence.
    + destruct (matplotlib_draw env G (resolve_layout G) workflow_data
                  (Some out) show) as [[|] files] eqn:Ed; cbn [fst].
      * left. split; [reflexivity|]. exists G. rewrite Ed, En.
        repeat split; [discriminate].
      * right. split; [reflexivity|]. intros (G' & E' & _ & Hd).
        injection E' as <-. rewrite Ed in Hd. discriminate Hd.
  - right. split; [reflexivity|]. intros (G' & E' & _). discriminate E'.
Qed.

(** X20. The command exits with status 0 exactly when the input is a
    file with a parsed document and either the graph builds, has a node
    and the matplotlib stage completes, or the fallback renderer returns
    [True] on the 800 by 600 canvas; in every other case it exits with
    status 1. *)
Theorem main_succeeds_iff (env : Env) (entry : fs_entry) (args : cli_args) :
  let out :=
    match output args with
    | Some p =>
        if String.eqb p ""
        then with_suffix env (input args) ("." ++ format args)%string
        else p
    | None => with_suffix env (input args) ("." ++ format args)%string
    end in
  let show := negb (no_show args) in
  (fst (main env entry args) = 0%Z \/ fst (main env entry args) = 1%Z) /\
  (fst (main env entry args) = 0%Z <->
   exists workflow_data,
     entry = RegularFile (Document workflow_data) /\
     ((exists G,
         create_workflow_graph workflow_data = Ok G /\
         nx.nodes G <> [] /\
         fst (matplotlib_draw env G (resolve_layout G) workflow_data
                (Some out) show) = true) \/
      fst (fst (create_simple_diagram env workflow_data out 800 600)) = true)).
Proof.
  intros out show. unfold main. fold out. fold show.
  destruct entry as [| |[|wd]]; cbn [fst visualize_file].
  1-3: (split; [right; reflexivity|]; split; [discriminate|];
        intros (wd & E & _); discriminate E).
  destruct (primary_result env wd out show) as [[Hp Hex]|[Hp Hnex]];
    destruct (visualize_workflow_matplotlib env wd (Some out) show)
      as [[p|] w]; cbn [fst] in Hp; try discriminate Hp.
  - cbn [fst]. split; [left; reflexivity|]. split; [|reflexivity].
    intros _. exists wd. split; [reflexivity|]. left. exact Hex.
  - destruct (create_simple_diagram env wd out 800 600) as [[[|] cv] w']
      eqn:Ec; cbn [fst].
    + split; [left; reflexivity|]. split; [|reflexivity].
      intros _. exists wd. split; [reflexivity|]. right.
      rewrite Ec. reflexivity.
    + split; [right; reflexivity|]. split; [discriminate|].
      intros (wd' & E & [Hex|Hf]); injection E as <-.
      * elim Hnex. exact Hex.
      * rewrite Ec in Hf. discriminate Hf.
Qed.

(* ================================================================== *)
(** * Validator *)

Lemma has_key_lookup k d : has_key k d = true <-> lookup k d <> None.
Proof.
  unfold has_key. destruct (lookup k d); split; try discriminate; auto.
Qed.

(** What one accepted iteration has checked. *)
Lemma validate_node_accepts node_ids node node_ids' :
  validate_node node_ids node = Some node_ids' <->
  exists nd p0 p1,
    node = JObj nd /\
    (forall field, In field node_required_fields -> lookup field nd <> None) /\
    nx.hashable (get "id" nd) = true /\
    existsb (fun k => nx.key_eqb k (get "id" nd)) node_ids = false /\
    lookup "position" nd = Some (JArr [p0; p1]) /\
    is_number p0 = true /\ is_number p1 = true /\
    node_ids' = node_ids ++ [get "id" nd].
Proof.
  split.
  - destruct node as [| | | | |nd]; try discriminate. cbn [validate_node].
    destruct (forallb _ node_required_fields) eqn:Ef; cbn [negb];
      [|discriminate].
    destruct (nx.hashable (get "id" nd)) eqn:Eh; cbn [negb]; [|discriminate].
    destruct (existsb _ node_ids) eqn:Ee; [discriminate|].
    rewrite forallb_forall in Ef.
    assert (Hp : has_key "position" nd = true).
    { apply Ef. unfold node_required_fields. simpl. auto. }
    unfold has_key in Hp. unfold get_default.
    destruct (lookup "position" nd) as [v|] eqn:Ep; [|discriminate].
    destruct v as [| | | |[|p0 [|p1 [|p2 r]]]|]; try discriminate.
    destruct (is_number p0) eqn:E0; [|discriminate].
    destruct (is_number p1) eqn:E1; [|discriminate].
    cbn [andb]. intros H. injection H as <-.
    exists nd, p0, p1. repeat split; auto.
    intros field Hin. apply has_key_lookup. apply Ef. exact Hin.
  - intros (nd & p0 & p1 & -> & Hf & Hh & He & Hp & H0 & H1 & ->).
    cbn [validate_node].
    assert (Ef : forallb (fun field => has_key field nd) node_required_fields
                 = true).
    { apply forallb_forall. intros field Hin. apply has_key_lookup.
      apply Hf. exact Hin. }
    rewrite Ef, Hh, He. cbn [negb].
    rewrite (get_default_present _ _ _ _ Hp), H0, H1. reflexivity.
Qed.

Lemma distinct_keys_snoc ks k :
  distinct_keys ks = true ->
  existsb (fun k' => nx.key_eqb k' k) ks = false ->
  distinct_keys (ks ++ [k]) = true.
Proof.
  intros Hd He. pose proof (add_key_distinct ks k Hd) as H.
  unfold add_key in H. rewrite He in H. exact H.
Qed.

Lemma app_cons_snoc {A} (l : list A) (a : A) (r : list A) :
  l ++ a :: r = (l ++ [a]) ++ r.
Proof. rewrite <- app_assoc. reflexivity. Qed.

Lemma validate_nodes_accepts nodes : forall node_ids node_ids',
  distinct_keys node_ids = true ->
  validate_nodes node_ids nodes = Some node_ids' <->
  node_ids' = node_ids ++ map node_id nodes /\
  distinct_keys (node_ids ++ map node_id nodes) = true /\
  forall node, In node nodes ->
    exists nd p0 p1,
      node = JObj nd /\
      (forall field, In field node_required_fields ->
         lookup field nd <> None) /\
      nx.hashable (get "id" nd) = true /\
      lookup "position" nd = Some (JArr [p0; p1]) /\
      is_number p0 = true /\ is_number p1 = true.
Proof.
  induction nodes as [|node nodes IH]; intros node_ids node_ids' Hd;
    cbn [validate_nodes map].
  - rewrite app_nil_r. split.
    + intros H; injection H as <-. repeat split; auto. intros node [].
    + intros (-> & _). reflexivity.
  - split.
    + destruct (validate_node node_ids node) as [ids1|] eqn:E; [|discriminate].
      apply validate_node_accepts in E.
      destruct E as (nd & p0 & p1 & -> & Hf & Hh & He & Hp & H0 & H1 & ->).
      intros H. apply IH in H; [|apply distinct_keys_snoc; assumption].
      destruct H as (-> & Hd' & Hall). cbn [node_id].
      rewrite <- app_cons_snoc in Hd'. rewrite <- app_cons_snoc.
      split; [reflexivity|]. split; [exact Hd'|].
      intros node [<-|Hin]; [|apply Hall; exact Hin].
      exists nd, p0, p1. repeat split; auto.
    + intros (-> & Hd' & Hall).
      destruct (Hall node (or_introl eq_refl))
        as (nd & p0 & p1 & -> & Hf & Hh & Hp & H0 & H1).
      cbn [node_id] in *.
      pose proof (distinct_keys_app_absent _ _ _ Hd') as He.
      assert (E : validate_node node_ids (JObj nd)
                  = Some (node_ids ++ [get "id" nd])).
      { apply validate_node_accepts. exists nd, p0, p1. repeat split; auto. }
      rewrite E.
      rewrite (app_cons_snoc node_ids (get "id" nd) (map node_id nodes)).
      apply IH.
      * apply distinct_keys_snoc; assumption.
      * rewrite <- (app_cons_snoc node_ids (get "id" nd) (map node_id nodes)).
        split; [reflexivity|].
        split; [exact Hd'|]. intros n Hn. apply Hall. right. exact Hn.
Qed.

(** What acceptance by the validator means. *)
Lemma validate_workflow_shape (wd : list (string * json)) :
  validate_workflow (JObj wd) = true <->
  exists l,
    lookup "nodes" wd = Some (JArr l) /\
    l <> [] /\
    distinct_keys (map node_id l) = true /\
    (forall node, In node l ->
       exists nd p0 p1,
         node = JObj nd /\
         (forall field, In field node_required_fields ->
            lookup field nd <> None) /\
         nx.hashable (get "id" nd) = true /\
         lookup "position" nd = Some (JArr [p0; p1]) /\
         is_number p0 = true /\ is_number p1 = true) /\
    (lookup "meta" wd = None \/ exists m, lookup "meta" wd = Some (JObj m)).
Proof.
  unfold validate_workflow, required_fields. cbn [forallb].
  rewrite andb_true_r. unfold has_key at 1, get_default at 1.
  split.
  - destruct (lookup "nodes" wd) as [[| | | |l|]|] eqn:El; cbn [negb];
      try discriminate.
    destruct l as [|n0 l0] eqn:Elist; cbn [length Nat.eqb]; [discriminate|].
    rewrite <- Elist in *.
    destruct (validate_nodes [] l) as [ids|] eqn:Ev; [|discriminate].
    apply (validate_nodes_accepts l [] ids eq_refl) in Ev.
    destruct Ev as (_ & Hd & Hall). cbn [app] in Hd.
    intros Hmeta. exists l. split; [reflexivity|].
    split; [subst l; discriminate|]. split; [exact Hd|]. split; [exact Hall|].
    unfold has_key, get_default in Hmeta.
    destruct (lookup "meta" wd) as [[| | | | |m]|]; try discriminate; eauto.
  - intros (l & -> & Hne & Hd & Hall & Hmeta). cbn [negb].
    destruct l as [|n0 l0] eqn:Elist; [congruence|].
    cbn [length Nat.eqb]. rewrite <- Elist in *.
    assert (Ev : validate_nodes [] l = Some ([] ++ map node_id l)).
    { apply validate_nodes_accepts; [reflexivity|]. auto. }
    rewrite Ev. unfold has_key, get_default.
    destruct Hmeta as [->|[m ->]]; reflexivity.
Qed.

(** X21. The validator accepts a document exactly when it is an object
    whose [nodes] field is a non-empty list of objects, each with the
    fields [id], [name], [type] and [position], a hashable identifier and
    a position of exactly two numbers, no two identifiers equal, and whose
    [meta] field, if present, is an object. *)
Theorem validate_workflow_accepts (wd : list (string * json)) :
  validate_workflow (JObj wd) = true <->
  exists l,
    lookup "nodes" wd = Some (JArr l) /\
    l <> [] /\
    distinct_keys (map node_id l) = true /\
    (forall node, In node l ->
       exists nd p0 p1,
         node = JObj nd /\
         (forall field, In field node_required_fields ->
            lookup field nd <> None) /\
         nx.hashable (get "id" nd) = true /\
         lookup "position" nd = Some (JArr [p0; p1]) /\
         is_number p0 = true /\ is_number p1 = true) /\
    (lookup "meta" wd = None \/ exists m, lookup "meta" wd = Some (JObj m)).
Proof. apply validate_workflow_shape. Qed.

Lemma validate_workflow_accepts_witness :
  exists l,
    lookup "nodes"
      (match doc_valid with JObj wd => wd | _ => [] end) = Some (JArr l) /\
    l <> [] /\
    distinct_keys (map node_id l) = true.
Proof.
  destruct (proj1 (validate_workflow_accepts
                     (match doc_valid with JObj wd => wd | _ => [] end))
              eq_refl) as (l & Hl & Hne & Hd & _).
  exists l. auto.
Defined.

(* ================================================================== *)
(** * Validator and GraphBuilder together *)

Lemma distinct_keys_later ks1 k ks2 :
  distinct_keys (ks1 ++ k :: ks2) = true ->
  forall k', In k' ks2 -> nx.key_eqb k' k = false.
Proof.
  induction ks1 as [|k1 ks1 IH]; simpl; intros H k' Hin.
  - apply andb_true_iff in H. destruct H as [H _].
    apply negb_true_iff in H.
    destruct (nx.key_eqb k' k) eqn:E; [|reflexivity].
    apply key_eqb_sym in E.
    assert (Hex : existsb (fun k'0 => nx.key_eqb k k'0) ks2 = true).
    { apply existsb_exists. exists k'. auto. }
    congruence.
  - apply andb_true_iff in H. destruct H as [_ H]. eapply IH; eassumption.
Qed.

Lemma number_of_is_number p : is_number p = true -> exists x, number p = Ok x.
Proof.
  destruct p as [|[|]|q| | |]; try discriminate; intros _; simpl; eauto.
Qed.

(** X22. A document the validator accepts loses nothing in the graph:
    if the graph builds, it has one node per descriptor, in document
    order, and each node carries the name, the type and the transformed
    position [(x/100, -y/100)] of its own descriptor; no default value is
    used. *)
Theorem validated_graph_keeps_all (wd : list (string * json))
  (l : list json) (G : nx.DiGraph) :
  validate_workflow (JObj wd) = true ->
  lookup "nodes" wd = Some (JArr l) ->
  create_workflow_graph (JObj wd) = Ok G ->
  map fst (nx.nodes G) = map node_id l /\
  forall node, In node l ->
    exists nd a p0 p1 x y,
      node = JObj nd /\
      nx.node_lookup (get "id" nd) (nx.nodes G) = Some (Some a) /\
      lookup "name" nd = Some (label a) /\
      lookup "type" nd = Some (type a) /\
      lookup "position" nd = Some (JArr [p0; p1]) /\
      number p0 = Ok x /\ number p1 = Ok y /\
      pos a = (x / 100, - y / 100)%Q.
Proof.
  intros Hv Hl H.
  apply validate_workflow_shape in Hv.
  destruct Hv as (l' & Hl' & _ & Hd & Hall & _).
  rewrite Hl in Hl'. injection Hl' as <-.
  split.
  - destruct (create_workflow_graph_phases _ _ H)
      as (wd' & l' & G0 & Ewd & El & E0 & _ & _ & _ & Hn & _).
    injection Ewd as <-.
    rewrite (get_default_present _ _ _ _ Hl) in El. simpl in El.
    injection El as <-.
    pose proof (node_loop_keys _ _ _ E0) as Hk. simpl in Hk.
    rewrite (fold_add_key_fresh _ [] Hd) in Hk. rewrite Hn. exact Hk.
  - intros node Hin.
    destruct (Hall node Hin) as (nd & p0 & p1 & -> & Hf & _ & Hp & H0 & H1).
    destruct (in_split _ _ Hin) as (pre & post & ->).
    assert (Hlast : forall node', In node' post ->
              nx.key_eqb (node_id node') (get "id" nd) = false).
    { intros node' Hin'. rewrite map_app in Hd. cbn [map node_id] in Hd.
      apply (distinct_keys_later _ _ _ Hd). apply in_map. exact Hin'. }
    destruct (last_descriptor_attrs wd G pre post nd Hl H Hlast)
      as (a & Hlk & Hlab & Hty & _ & Hpos).
    destruct (number_of_is_number _ H0) as [x Hx].
    destruct (number_of_is_number _ H1) as [y Hy].
    exists nd, a, p0, p1, x, y.
    split; [reflexivity|]. split; [exact Hlk|].
    assert (Hname : lookup "name" nd <> None)
      by (apply Hf; simpl; auto).
    assert (Htype : lookup "type" nd <> None)
      by (apply Hf; simpl; auto).
    unfold get_default in Hlab, Hty.
    destruct (lookup "name" nd) as [vn|]; [|congruence].
    destruct (lookup "type" nd) as [vt|]; [|congruence].
    subst vn vt.
    split; [reflexivity|]. split; [reflexivity|]. split; [exact Hp|].
    split; [exact Hx|]. split; [exact Hy|].
    rewrite (get_default_present _ _ _ _ Hp) in Hpos.
    rewrite (node_pos_numbers p0 p1 [] x y Hx Hy) in Hpos.
    destruct (overflows (x / 100)); [discriminate Hpos|].
    destruct (overflows (- y / 100)); [discriminate Hpos|].
    injection Hpos as <-. reflexivity.
Qed.

Lemma validated_graph_keeps_all_witness :
  validate_workflow doc_valid = true /\
  create_workflow_graph doc_valid = Ok (graph_of doc_valid) /\
  map fst (nx.nodes (graph_of doc_valid)) = [JStr "1"; JStr "2"].
Proof.
  split; [reflexivity|]. split; [reflexivity|].
  apply (proj1 (validated_graph_keeps_all
                  (match doc_valid with JObj wd => wd | _ => [] end)
                  _ (graph_of doc_valid) eq_refl eq_refl eq_refl)).
Defined.

Lemma add_connections_total G connections :
  match connections with
  | JObj cs => forallb (fun e => is_dict (snd e)) (items cs) = true
  | _ => False
  end ->
  exists G', add_connections G connections = Ok G'.
Proof.
  destruct connections as [| | | | |cs]; try contradiction.
  intros Hc. unfold add_connections.
  apply foldM_total_on. intros a Ha s. apply add_source_total.
  rewrite forallb_forall in Hc. apply Hc; assumption.
Qed.

(** X23. What the validator leaves unchecked and the builder needs: a
    validated document builds without error as soon as no identifier is
    null, every type is a string, no position coordinate is too large
    for a float when divided by 100, and the connection map, if present,
    is an object of objects; the graph then has exactly as many nodes as
    the document has descriptors. *)
Theorem validated_workflow_builds (wd : list (string * json))
  (l : list json) :
  validate_workflow (JObj wd) = true ->
  lookup "nodes" wd = Some (JArr l) ->
  (forall nd, In (JObj nd) l ->
     get "id" nd <> JNull /\
     (exists t, lookup "type" nd = Some (JStr t)) /\
     (forall p0 p1, lookup "position" nd = Some (JArr [p0; p1]) ->
        position_in_range p0 p1 = true)) ->
  match lookup "connections" wd with
  | None => True
  | Some (JObj cs) => forallb (fun e => is_dict (snd e)) (items cs) = true
  | Some _ => False
  end ->
  exists G,
    create_workflow_graph (JObj wd) = Ok G /\
    length (nx.nodes G) = length l.
Proof.
  intros Hv Hl Hextra Hconn.
  apply validate_workflow_shape in Hv.
  destruct Hv as (l' & Hl' & _ & Hd & Hall & _).
  rewrite Hl in Hl'. injection Hl' as <-.
  assert (Hnodes : exists G0, foldM add_workflow_node l nx.empty = Ok G0).
  { apply foldM_total_on. intros node Hin G.
    destruct (Hall node Hin) as (nd & p0 & p1 & -> & _ & Hh & Hp & H0 & H1).
    destruct (Hextra nd Hin) as (Hnn & (t & Ht) & Hrange).
    specialize (Hrange p0 p1 Hp). unfold position_in_range in Hrange.
    destruct (number_of_is_number _ H0) as [x Hx].
    destruct (number_of_is_number _ H1) as [y Hy].
    rewrite Hx, Hy in Hrange. apply andb_true_iff in Hrange.
    destruct Hrange as [Rx Ry]. apply negb_true_iff in Rx, Ry.
    cbn [add_workflow_node].
    rewrite (get_default_present _ _ _ _ Hp), (get_default_present _ _ _ _ Ht).
    rewrite (node_pos_numbers p0 p1 [] x y Hx Hy), Rx, Ry.
    cbn [bind get_node_color].
    unfold nx.add_node. rewrite Hh. cbn [negb].
    destruct (nx.has_node G (get "id" nd)); [eauto|].
    destruct (get "id" nd); try congruence; eauto. }
  destruct Hnodes as [G0 E0].
  assert (Hedges : exists G,
            add_connections G0 (get_default "connections" (JObj []) wd) = Ok G).
  { apply add_connections_total. unfold get_default.
    destruct (lookup "connections" wd) as [[| | | | |cs]|]; try exact Hconn.
    reflexivity. }
  destruct Hedges as [G HG]. exists G.
  assert (Hbuild : create_workflow_graph (JObj wd) = Ok G).
  { unfold create_workflow_graph, add_nodes.
    rewrite (get_default_present _ _ _ _ Hl). cbn [py_iter bind].
    rewrite E0. exact HG. }
  split; [exact Hbuild|].
  pose proof (node_loop_keys _ _ _ E0) as Hk. simpl in Hk.
  rewrite (fold_add_key_fresh _ [] Hd) in Hk. simpl in Hk.
  rewrite (edge_steps_nodes _ _ (add_connections_steps _ _ _ HG)).
  rewrite <- (length_map fst), Hk, length_map. reflexivity.
Qed.

Lemma validated_workflow_builds_witness :
  validate_workflow doc_valid = true /\
  exists G,
    create_workflow_graph doc_valid = Ok G /\ length (nx.nodes G) = 2%nat.
Proof.
  split; [reflexivity|].
  apply (validated_workflow_builds
           (match doc_valid with JObj wd => wd | _ => [] end) _
           eq_refl eq_refl).
  - intros nd [E|[E|[]]]; injection E as <-;
      (split; [discriminate|]; split; [eexists; reflexivity|];
       intros p0 p1 Hp; injection Hp as <- <-; reflexivity).
  - reflexivity.
Defined.

(* ================================================================== *)
(** * GraphBuilder: when it raises *)






(** X25. Output port names and the grouping of descriptors do not
    matter: two connection maps that list the same descriptors under the
    same sources in the same order give the same graph. *)
Theorem grouping_irrelevant (G G1 G2 : nx.DiGraph) (c1 c2 : json) :
  add_connections G c1 = Ok G1 ->
  add_connections G c2 = Ok G2 ->
  connection_descriptors c1 = connection_descriptors c2 ->
  G1 = G2.
Proof.
  intros H1 H2 E.
  apply add_connections_flat in H1, H2. rewrite E in H1. congruence.
Qed.

Lemma grouping_irrelevant_witness :
  graph_of doc_parallel = graph_of doc_regrouped.
Proof.
  apply (grouping_irrelevant
           (match add_nodes (JArr [node_desc "a" []; node_desc "b" []]) with
            | Ok G => G
            | Raise _ => nx.empty
            end)
           (graph_of doc_parallel) (graph_of doc_regrouped)
           (JObj [("a", connect_to ["b"; "b"])])
           (JObj [("a", JObj [("main", JArr [JArr [JObj [("node", JStr "b")]]]);
                              ("error", JArr [JArr [JObj [("node", JStr "b")]]])])]));
    reflexivity.
Defined.
